(** * A shallow embedding of the Pinecone adapter layer

    The development models the three Python modules [search_validator.py],
    [search_similar.py] and [insert_text.py]: the parameter validators, the
    search pipeline with its empty-index short circuit and result
    normalisation, and the insert pipeline with its in-place metadata update.

    Python values are dynamically typed, so arguments are elements of [pyval];
    dictionaries are objects that live in a heap and are passed by reference.
    The two managed services (OpenAI embeddings, Pinecone index) are an oracle
    [world]; every call made to them is written to a log of [event]s, which is
    how "no network call was made" is stated. *)

From Stdlib Require Import ZArith Ascii String List.
From stdpp Require Import base option gmap strings list fin_maps.

Local Open Scope Z_scope.
Local Open Scope string_scope.
Local Open Scope list_scope.

(** ** Python values *)

(** Heap addresses of dictionary objects. *)
Abbreviation loc := positive.

(** A [float] is kept as its IEEE-754 binary64 bit pattern; the code under
    study only copies floats around and tests them for truth. *)
#[warnings="-register-all"]
Inductive pyval :=
  | PyNone
  | PyBool (b : bool)
  | PyInt (z : Z)
  | PyFloat (bits : Z)
  | PyStr (s : string)
  | PyList (xs : list pyval)
  | PyDict (l : loc).

(** The contents of a [dict] object with string keys. *)
Abbreviation pydict := (gmap string pyval).
Abbreviation pyheap := (gmap loc (gmap string pyval)).

(** [float_is_zero bits]: the float is [0.0] or [-0.0] (sign bit ignored). *)
Definition float_is_zero (bits : Z) : bool :=
  Z.eqb (Z.land bits (Z.ones 63)) 0.

(** The contents of the dictionary at an address; the addresses held by
    live values are always allocated. *)
Definition deref (h : pyheap) (l : loc) : gmap string pyval :=
  default ∅ (h !! l).

(** Python truth value testing, as used by [not x] and [x or y]. *)
Definition truthy (h : pyheap) (v : pyval) : bool :=
  match v with
  | PyNone => false
  | PyBool b => b
  | PyInt z => negb (Z.eqb z 0)
  | PyFloat bits => negb (float_is_zero bits)
  | PyStr s => negb (String.eqb s "")
  | PyList xs => match xs with [] => false | _ :: _ => true end
  | PyDict l => negb (Nat.eqb (size (deref h l)) 0)
  end.

(** [isinstance(v, str)], [isinstance(v, int)] (a [bool] is an [int] in
    Python) and [isinstance(v, dict)]. *)
Definition isinstance_str (v : pyval) : bool :=
  match v with PyStr _ => true | _ => false end.

Definition isinstance_int (v : pyval) : bool :=
  match v with PyInt _ | PyBool _ => true | _ => false end.

Definition isinstance_dict (v : pyval) : bool :=
  match v with PyDict _ => true | _ => false end.

Definition is_none (v : pyval) : bool :=
  match v with PyNone => true | _ => false end.

(** The integer value of an [int] instance ([True] is 1, [False] is 0). *)
Definition int_value (v : pyval) : Z :=
  match v with
  | PyInt z => z
  | PyBool true => 1
  | _ => 0
  end.

(** [v == 0] for the values a count can take. *)
Definition py_eq_zero (v : pyval) : bool :=
  match v with
  | PyInt z => Z.eqb z 0
  | PyBool b => negb b
  | PyFloat bits => float_is_zero bits
  | _ => false
  end.

(** ** Strings and [str.strip]

    A Python [str] is modelled by a [string] whose characters are the code
    points below 256.  [py_isspace] is [str.isspace] on one such character:
    TAB, LF, VT, FF, CR, FS, GS, RS, US, SPACE, NEL and NBSP. *)
Definition py_isspace (c : ascii) : bool :=
  let n := nat_of_ascii c in
  ((9 <=? n) && (n <=? 13) || (28 <=? n) && (n <=? 32)
   || (n =? 133) || (n =? 160))%nat.

Fixpoint lstrip (s : string) : string :=
  match s with
  | EmptyString => EmptyString
  | String c s' => if py_isspace c then lstrip s' else s
  end.

Fixpoint rstrip (s : string) : string :=
  match s with
  | EmptyString => EmptyString
  | String c s' =>
      match rstrip s' with
      | EmptyString => if py_isspace c then EmptyString else String c EmptyString
      | r => String c r
      end
  end.

(** [s.strip()] with no argument. *)
Definition strip (s : string) : string := rstrip (lstrip s).

(** The string is made of whitespace only (the empty string included). *)
Fixpoint whitespace_only (s : string) : bool :=
  match s with
  | EmptyString => true
  | String c s' => py_isspace c && whitespace_only s'
  end.

(** ** Exceptions and results *)

(** [NonException] stands for the classes that derive from [BaseException]
    but not from [Exception] ([KeyboardInterrupt], [SystemExit]). *)
Inductive exn_class :=
  | ValueError
  | TypeError
  | OtherException (name : string)
  | NonException (name : string).

Record exn := Exn { exn_cls : exn_class; exn_msg : string }.

(** [isinstance(e, Exception)], the test made by [except Exception]. *)
Definition is_Exception (e : exn) : bool :=
  match exn_cls e with
  | NonException _ => false
  | _ => true
  end.

Inductive result (A : Type) :=
  | Ok (a : A)
  | Raise (e : exn).
Arguments Ok {A} a.
Arguments Raise {A} e.

(** ** search_validator.py *)

(** The guard [not text or not isinstance(text, str) or text.strip() == ""]
    with Python's left-to-right short circuit. *)
Definition text_rejected (h : pyheap) (text : pyval) : bool :=
  negb (truthy h text)
  || negb (isinstance_str text)
  || match text with
     | PyStr s => String.eqb (strip s) ""
     | _ => false
     end.

Definition validate_search_params (h : pyheap)
    (query_text top_k api_key index_name : pyval) : result unit :=
  if text_rejected h query_text then
    Raise (Exn ValueError "Query text cannot be empty and must be a string")
  else if negb (isinstance_int top_k) then
    Raise (Exn TypeError "top_k must be an integer")
  else if (int_value top_k <=? 0)%Z then
    Raise (Exn ValueError "top_k must be a positive integer")
  else if negb (truthy h api_key) then
    Raise (Exn ValueError "API key is required")
  else if negb (truthy h index_name) then
    Raise (Exn ValueError "Index name is required")
  else Ok tt.

Definition validate_insert_params (h : pyheap)
    (text metadata api_key index_name : pyval) : result unit :=
  if text_rejected h text then
    Raise (Exn ValueError "Text cannot be empty and must be a string")
  else if negb (is_none metadata) && negb (isinstance_dict metadata) then
    Raise (Exn TypeError "Metadata must be a dictionary")
  else if negb (truthy h api_key) then
    Raise (Exn ValueError "API key is required")
  else if negb (truthy h index_name) then
    Raise (Exn ValueError "Index name is required")
  else Ok tt.

(** ** The external services and the interpreter state *)

Abbreviation float64 := Z.

(** The handle returned by [pc.Index(index_name)] or
    [pc.Index(index_name, host=pinecone_host)] on a client built with
    [Pinecone(api_key=...)]. *)
Record index := Index {
  index_api_key : pyval;
  index_name_of : pyval;
  index_host : option pyval
}.

(** One entry of [results.matches], and the query response that carries
    them ([matches] may be [None]). *)
Record raw_match := RawMatch {
  match_id : string;
  match_score : float64;
  match_metadata : option (gmap string pyval)
}.

Record query_response := QueryResponse {
  matches : option (list raw_match)
}.

(** The record passed to [index.upsert(vectors=[...])]. *)
Record vector := Vector {
  vector_id_of : string;
  vector_values : list float64;
  vector_metadata : gmap string pyval
}.

(** The dictionary built for each match by [search_similar_texts], with
    its four keys ["id"], ["text"], ["similarity_score"], ["metadata"]. *)
Record search_result := SearchResult {
  sr_id : string;
  sr_text : pyval;
  sr_similarity_score : float64;
  sr_metadata : gmap string pyval
}.

(** Everything outside the process: the two services, the [.env] file read
    by [load_dotenv] and the stream of identifiers drawn by [uuid.uuid4]. *)
Record world := World {
  dotenv_file : gmap string string;
  uuid_source : nat -> string;
  svc_embed : pyval -> pyval -> result (list float64);
  svc_describe_index_stats : index -> result (gmap string pyval);
  svc_query :
    index -> pyval -> list float64 -> pyval -> result query_response;
  svc_upsert : index -> pyval -> vector -> result unit
}.

(** The calls that leave the process, each with what the service answered. *)
Inductive event :=
  | DescribeIndexStats (ix : index) (r : result (gmap string pyval))
  | EmbeddingsCreate (key input : pyval) (r : result (list float64))
  | IndexQuery (ix : index) (namespace : pyval) (v : list float64)
      (top_k : pyval) (r : result query_response)
  | IndexUpsert (ix : index) (namespace : pyval) (v : vector)
      (r : result unit).

Definition is_embed_call (ev : event) : bool :=
  match ev with EmbeddingsCreate _ _ _ => true | _ => false end.

Definition is_query_call (ev : event) : bool :=
  match ev with IndexQuery _ _ _ _ _ => true | _ => false end.

Definition is_upsert_call (ev : event) : bool :=
  match ev with IndexUpsert _ _ _ _ => true | _ => false end.

(** The exception a call ended with, if any. *)
Definition failure_of (ev : event) : option exn :=
  match ev with
  | DescribeIndexStats _ (Raise e)
  | EmbeddingsCreate _ _ (Raise e)
  | IndexQuery _ _ _ _ (Raise e)
  | IndexUpsert _ _ _ (Raise e) => Some e
  | _ => None
  end.

(** The process state: [os.environ], the heap of dictionaries, what was
    printed, the module-global [openai.api_key] and how many identifiers
    were drawn so far. *)
Record state := State {
  environ : gmap string string;
  heap : gmap loc (gmap string pyval);
  stdout : list string;
  openai_api_key_global : pyval;
  uuid_counter : nat
}.

Definition set_environ (f : gmap string string -> gmap string string)
    (s : state) : state :=
  State (f (environ s)) (heap s) (stdout s) (openai_api_key_global s)
    (uuid_counter s).

Definition set_heap (f : pyheap -> pyheap) (s : state) : state :=
  State (environ s) (f (heap s)) (stdout s) (openai_api_key_global s)
    (uuid_counter s).

Definition set_stdout (f : list string -> list string) (s : state) : state :=
  State (environ s) (heap s) (f (stdout s)) (openai_api_key_global s)
    (uuid_counter s).

Definition set_openai_api_key (k : pyval) (s : state) : state :=
  State (environ s) (heap s) (stdout s) k (uuid_counter s).

Definition set_uuid_counter (n : nat) (s : state) : state :=
  State (environ s) (heap s) (stdout s) (openai_api_key_global s) n.

Definition dict_contents (h : pyheap) (v : pyval) : gmap string pyval :=
  match v with
  | PyDict l => deref h l
  | _ => ∅
  end.

(** ** The monad of the two pipelines: state, exceptions and a call log *)

Record outcome (A : Type) := Outcome {
  res : result A;
  final : state;
  calls : list event
}.
Arguments Outcome {A} res final calls.
Arguments res {A} o.
Arguments final {A} o.
Arguments calls {A} o.

Definition M (A : Type) : Type := state -> outcome A.

Definition ret {A} (a : A) : M A := fun s => Outcome (Ok a) s [].

Definition raise {A} (e : exn) : M A := fun s => Outcome (Raise e) s [].

Definition bind {A B} (m : M A) (k : A -> M B) : M B :=
  fun s =>
    let o := m s in
    match res o with
    | Ok a =>
        let o' := k a (final o) in
        Outcome (res o') (final o') (calls o ++ calls o')
    | Raise e => Outcome (Raise e) (final o) (calls o)
    end.

Declare Scope py_scope.
Delimit Scope py_scope with py.
Notation "'do' x <- m ; k" := (bind m (fun x => k))
  (at level 10, x name, m at level 100, k at level 200) : py_scope.
Notation "m ;; k" := (bind m (fun _ => k))
  (at level 100, k at level 200, right associativity) : py_scope.

(** [try: body  except Exception as e: handler(e)]: an exception whose class
    does not derive from [Exception] passes through. *)
Definition try_except_Exception {A} (body : M A) (handler : exn -> M A)
    : M A :=
  fun s =>
    let o := body s in
    match res o with
    | Ok a => o
    | Raise e =>
        if is_Exception e then
          let o' := handler e (final o) in
          Outcome (res o') (final o') (calls o ++ calls o')
        else o
    end.

Definition get_heap : M pyheap := fun s => Outcome (Ok (heap s)) s [].

Definition lift_result {A} (r : result A) : M A :=
  fun s => Outcome r s [].

Definition print (line : string) : M unit :=
  fun s => Outcome (Ok tt) (set_stdout (fun out => out ++ [line]) s) [].

(** [os.getenv(name)] and [os.getenv(name, default)]. *)
Definition getenv (name : string) : M pyval :=
  fun s =>
    Outcome (Ok (match environ s !! name with
                 | Some v => PyStr v
                 | None => PyNone
                 end)) s [].

Definition getenv_default (name dflt : string) : M pyval :=
  fun s => Outcome (Ok (PyStr (default dflt (environ s !! name)))) s [].

(** [a or b]: [b] is evaluated only when [a] is falsy. *)
Definition py_or (a : pyval) (b : M pyval) : M pyval :=
  fun s => if truthy (heap s) a then ret a s else b s.

(** [{}]: a new empty dictionary at an unused address. *)
Definition new_dict : M pyval :=
  fun s =>
    let l := fresh (dom (heap s)) in
    Outcome (Ok (PyDict l)) (set_heap (insert l ∅) s) [].

(** [d[k] = v]: the dictionary object is updated in place. *)
Definition setitem (d : pyval) (k : string) (v : pyval) : M unit :=
  fun s =>
    match d with
    | PyDict l =>
        Outcome (Ok tt)
          (set_heap (fun h => <[l := <[k := v]> (deref h l)]> h) s) []
    | _ =>
        Outcome
          (Raise (Exn TypeError "object does not support item assignment"))
          s []
    end.

Local Open Scope py_scope.

(** ** search_similar.py: result normalisation *)

(** The body of [for match in matches]: [match.get("metadata", {})] and
    [metadata.get("text", "No text available")]. *)
Definition normalize_match (m : raw_match) : search_result :=
  let metadata := default ∅ (match_metadata m) in
  let text := default (PyStr "No text available") (metadata !! "text") in
  SearchResult (match_id m) text (match_score m) metadata.

(** The loop itself: [similar_items] starts empty and every iteration
    appends one item. *)
Definition normalize_matches (ms : list raw_match) : list search_result :=
  fold_left (fun similar_items m => similar_items ++ [normalize_match m])
    ms [].

(** [results.matches or []]. *)
Definition matches_or_empty (r : query_response) : list raw_match :=
  match matches r with
  | Some (m :: ms) => m :: ms
  | _ => []
  end.

(** ** The two pipelines *)

Section Pipelines.

Context (w : world).

(** [load_dotenv()]: variables of the [.env] file are added to the
    environment, those already set are kept. *)
Definition load_dotenv : M unit :=
  fun s => Outcome (Ok tt) (set_environ (fun env => env ∪ dotenv_file w) s) [].

(** [str(uuid.uuid4())]. *)
Definition uuid4_str : M string :=
  fun s =>
    Outcome (Ok (uuid_source w (uuid_counter s)))
      (set_uuid_counter (S (uuid_counter s)) s) [].

(** [embed_text_openai]: sets the module-global credential, then calls
    [openai.embeddings.create(input=[text], model=...)] and returns
    [response.data[0].embedding]. *)
Definition embed_text_openai (text openai_api_key : pyval)
    : M (list float64) :=
  fun s =>
    let r := svc_embed w openai_api_key text in
    Outcome r (set_openai_api_key openai_api_key s)
      [EmbeddingsCreate openai_api_key text r].

Definition describe_index_stats (ix : index) : M (gmap string pyval) :=
  fun s =>
    let r := svc_describe_index_stats w ix in
    Outcome r s [DescribeIndexStats ix r].

(** [index.query(namespace=..., vector=..., top_k=...,
    include_metadata=True)]. *)
Definition index_query (ix : index) (namespace : pyval)
    (v : list float64) (top_k : pyval) : M query_response :=
  fun s =>
    let r := svc_query w ix namespace v top_k in
    Outcome r s [IndexQuery ix namespace v top_k r].

(** [index.upsert(vectors=[{"id": .., "values": .., "metadata": ..}],
    namespace=...)]: the store receives the contents the metadata
    dictionary has at the time of the call. *)
Definition index_upsert (ix : index) (namespace : pyval) (id : string)
    (values : list float64) (metadata : pyval) : M unit :=
  fun s =>
    let v := Vector id values (dict_contents (heap s) metadata) in
    let r := svc_upsert w ix namespace v in
    Outcome r s [IndexUpsert ix namespace v r].

(** [Pinecone(api_key=...)] followed by [pc.Index(index_name, host=...)]
    when [pinecone_host] is truthy and [pc.Index(index_name)] otherwise. *)
Definition make_index (pinecone_api_key index_name pinecone_host : pyval)
    : M index :=
  fun s =>
    Outcome
      (Ok (Index pinecone_api_key index_name
             (if truthy (heap s) pinecone_host then Some pinecone_host
              else None)))
      s [].

(** The credential and handle set-up shared by both entry points, after
    validation: the three [x or os.getenv(..)] lines, the two checks and
    the construction of the index handle. *)
Definition connect (api_key index_name openai_api_key pinecone_host : pyval)
    : M (index * pyval) :=
  do pinecone_api_key <- py_or api_key (getenv "PINECONE_API_KEY");
  do openai_api_key <- py_or openai_api_key (getenv "OPENAI_API_KEY");
  do pinecone_host <- py_or pinecone_host (getenv "PINECONE_HOST");
  do h <- get_heap;
  if negb (truthy h pinecone_api_key) then
    raise (Exn ValueError
      "Pinecone API key not provided and not found in environment variables")
  else if negb (truthy h openai_api_key) then
    raise (Exn ValueError
      "OpenAI API key not provided and not found in environment variables")
  else
    do ix <- make_index pinecone_api_key index_name pinecone_host;
    ret (ix, openai_api_key).

(** [if index_name is None: index_name = os.getenv(.., default)]. *)
Definition resolve_index_name (index_name : pyval) : M pyval :=
  if is_none index_name then
    getenv_default "PINECONE_INDEX_NAME" "msft-deep-search-oai-3-small"
  else ret index_name.

(** The [try] block of [search_similar_texts]; the value tells whether
    [return []] was taken. *)
Definition index_is_empty (ix : index) : M bool :=
  try_except_Exception
    (do stats <- describe_index_stats ix;
     let total_vectors := default (PyInt 0) (stats !! "total_vector_count") in
     ret (py_eq_zero total_vectors))
    (fun e =>
       print ("Error fetching index stats: " +:+ exn_msg e);;
       ret false).

Definition search_similar_texts
    (query_text top_k api_key index_name namespace openai_api_key
       pinecone_host : pyval) : M (list search_result) :=
  do index_name <- resolve_index_name index_name;
  do h <- get_heap;
  lift_result (validate_search_params h query_text top_k api_key index_name);;
  load_dotenv;;
  do c <- connect api_key index_name openai_api_key pinecone_host;
  let ix := fst c in
  let openai_api_key := snd c in
  do empty <- index_is_empty ix;
  if empty then ret []
  else
    do query_embedding <- embed_text_openai query_text openai_api_key;
    do results <- index_query ix namespace query_embedding top_k;
    ret (normalize_matches (matches_or_empty results)).

Definition insert_text
    (text metadata api_key index_name namespace openai_api_key
       pinecone_host : pyval) : M string :=
  do index_name <- resolve_index_name index_name;
  do h <- get_heap;
  lift_result (validate_insert_params h text metadata api_key index_name);;
  do c <- connect api_key index_name openai_api_key pinecone_host;
  let ix := fst c in
  let openai_api_key := snd c in
  do vector_id <- uuid4_str;
  do embedding <- embed_text_openai text openai_api_key;
  do metadata <- (if is_none metadata then new_dict else ret metadata);
  setitem metadata "text" text;;
  index_upsert ix namespace vector_id embedding metadata;;
  ret vector_id.

End Pipelines.

(** ** The second half of each pipeline

    What [search_similar_texts] and [insert_text] do once the arguments are
    validated and the index handle is built, named so that the proofs can
    treat the call-free first half and the calling second half apart. *)

Section Stages.

Context (w : world).

Definition search_index (ix : index)
    (openai_api_key query_text top_k namespace : pyval)
    : M (list search_result) :=
  do empty <- index_is_empty w ix;
  if empty then ret []
  else
    do query_embedding <- embed_text_openai w query_text openai_api_key;
    do results <- index_query w ix namespace query_embedding top_k;
    ret (normalize_matches (matches_or_empty results)).

Definition insert_record (ix : index)
    (openai_api_key text metadata namespace : pyval) : M string :=
  do vector_id <- uuid4_str w;
  do embedding <- embed_text_openai w text openai_api_key;
  do metadata <- (if is_none metadata then new_dict else ret metadata);
  setitem metadata "text" text;;
  index_upsert w ix namespace vector_id embedding metadata;;
  ret vector_id.

End Stages.

(** The index name both entry points work with: the argument, or the
    environment's [PINECONE_INDEX_NAME] (with its default) when the
    argument is [None]. *)
Definition resolved_index_name (s : state) (index_name : pyval) : pyval :=
  if is_none index_name then
    PyStr (default "msft-deep-search-oai-3-small"
             (environ s !! "PINECONE_INDEX_NAME"))
  else index_name.

(** [a or os.getenv(name)] as a value. *)
Definition or_getenv (s : state) (a : pyval) (name : string) : pyval :=
  if truthy (heap s) a then a
  else match environ s !! name with
       | Some v => PyStr v
       | None => PyNone
       end.

(** What [connect] computes, as a function of the state it runs in. *)
Definition connected (s : state)
    (api_key index_name openai_api_key pinecone_host : pyval)
    : result (index * pyval) :=
  let pinecone_api_key := or_getenv s api_key "PINECONE_API_KEY" in
  let openai_api_key := or_getenv s openai_api_key "OPENAI_API_KEY" in
  let pinecone_host := or_getenv s pinecone_host "PINECONE_HOST" in
  if negb (truthy (heap s) pinecone_api_key) then
    Raise (Exn ValueError
      "Pinecone API key not provided and not found in environment variables")
  else if negb (truthy (heap s) openai_api_key) then
    Raise (Exn ValueError
      "OpenAI API key not provided and not found in environment variables")
  else
    Ok (Index pinecone_api_key index_name
          (if truthy (heap s) pinecone_host then Some pinecone_host else None),
        openai_api_key).

(** ** Test doubles

    A store double that answers a query with three matches scored 0.95,
    0.80 and 0.50 (the second without a ["text"] entry, the third without
    metadata), an embedder double, and variants of the world in which one
    service fails or the index is empty. *)

Definition score_095 : float64 := 4606732058837280358.
Definition score_080 : float64 := 4605380978949069210.
Definition score_050 : float64 := 4602678819172646912.

Definition demo_matches : list raw_match :=
  [ RawMatch "m1" score_095 (Some {[ "text" := PyStr "first" ]});
    RawMatch "m2" score_080 (Some {[ "category" := PyStr "x" ]});
    RawMatch "m3" score_050 None ].

Definition demo_embedding : list float64 :=
  [4591870180066957722; 4596373779694328218; 4599075939470750515].

Definition demo_uuid (n : nat) : string :=
  match n with
  | O => "3f2b8a52-0c55-4a57-9b63-1d0c2f7e8a01"
  | _ => "9a1c4e70-6d2f-4f0b-8e35-7b51c0d4e2f9"
  end.

Definition service_down : exn :=
  Exn (OtherException "ServiceUnavailable") "503 service unavailable".

Definition demo_world : world :=
  World {[ "PINECONE_HOST" := "https://demo.pinecone.io" ]} demo_uuid
    (fun _ _ => Ok demo_embedding)
    (fun _ => Ok {[ "total_vector_count" := PyInt 3 ]})
    (fun _ _ _ _ => Ok (QueryResponse (Some demo_matches)))
    (fun _ _ _ => Ok tt).

Definition empty_index_world : world :=
  World ∅ demo_uuid
    (fun _ _ => Ok demo_embedding)
    (fun _ => Ok {[ "total_vector_count" := PyInt 0 ]})
    (fun _ _ _ _ => Ok (QueryResponse (Some demo_matches)))
    (fun _ _ _ => Ok tt).

Definition stats_down_world : world :=
  World ∅ demo_uuid
    (fun _ _ => Ok demo_embedding)
    (fun _ => Raise service_down)
    (fun _ _ _ _ => Ok (QueryResponse (Some demo_matches)))
    (fun _ _ _ => Ok tt).

Definition embed_down_world : world :=
  World ∅ demo_uuid
    (fun _ _ => Raise service_down)
    (fun _ => Ok {[ "total_vector_count" := PyInt 3 ]})
    (fun _ _ _ _ => Ok (QueryResponse (Some demo_matches)))
    (fun _ _ _ => Ok tt).

(** A process whose environment holds both credentials and whose heap
    holds one caller-owned metadata dictionary at address 1. *)
Definition demo_state : state :=
  State {[ "PINECONE_API_KEY" := "pk-env"; "OPENAI_API_KEY" := "sk-env" ]}
    {[ 1%positive := {[ "category" := PyStr "x"; "text" := PyStr "other" ]} ]}
    [] PyNone 0.

(** ** Closed forms of the two second halves

    What [search_index] and [insert_record] amount to, written without the
    monad: the outcome as a function of the answers of the services. The
    section on runs proves them equal to the monadic definitions. *)

Section ClosedForms.

Context (w : world).

Definition search_index_outcome (ix : index)
    (openai_api_key query_text top_k namespace : pyval) (s : state)
    : outcome (list search_result) :=
  let r_stats := svc_describe_index_stats w ix in
  let stats_ev := DescribeIndexStats ix r_stats in
  let r_embed := svc_embed w openai_api_key query_text in
  let embed_ev := EmbeddingsCreate openai_api_key query_text r_embed in
  let embed_and_query (s' : state) : outcome (list search_result) :=
    match r_embed with
    | Raise e =>
        Outcome (Raise e) (set_openai_api_key openai_api_key s')
          [stats_ev; embed_ev]
    | Ok v =>
        let r_query := svc_query w ix namespace v top_k in
        Outcome
          (match r_query with
           | Ok results => Ok (normalize_matches (matches_or_empty results))
           | Raise e => Raise e
           end)
          (set_openai_api_key openai_api_key s')
          [stats_ev; embed_ev; IndexQuery ix namespace v top_k r_query]
    end in
  match r_stats with
  | Ok stats =>
      if py_eq_zero (default (PyInt 0) (stats !! "total_vector_count"))
      then Outcome (Ok []) s [stats_ev]
      else embed_and_query s
  | Raise e =>
      if is_Exception e then
        embed_and_query
          (set_stdout
             (fun out => out ++ ["Error fetching index stats: " +:+ exn_msg e])
             s)
      else Outcome (Raise e) s [stats_ev]
  end.

(** The state after [metadata = {}] (when [None] was passed) and
    [metadata["text"] = text], with the address of the dictionary that is
    sent to the store. *)
Definition metadata_written (metadata text : pyval) (s : state)
    : option (loc * state) :=
  match metadata with
  | PyNone =>
      let l := fresh (dom (heap s)) in
      Some (l, set_heap (fun h => <[l := {[ "text" := text ]}]> h) s)
  | PyDict l =>
      Some (l, set_heap (fun h => <[l := <["text" := text]> (deref h l)]> h) s)
  | _ => None
  end.

Definition insert_record_outcome (ix : index)
    (openai_api_key text metadata namespace : pyval) (s : state)
    : outcome string :=
  let id := uuid_source w (uuid_counter s) in
  let r_embed := svc_embed w openai_api_key text in
  let embed_ev := EmbeddingsCreate openai_api_key text r_embed in
  let s2 := set_openai_api_key openai_api_key
              (set_uuid_counter (S (uuid_counter s)) s) in
  match r_embed with
  | Raise e => Outcome (Raise e) s2 [embed_ev]
  | Ok emb =>
      match metadata_written metadata text s2 with
      | None =>
          Outcome
            (Raise (Exn TypeError "object does not support item assignment"))
            s2 [embed_ev]
      | Some (l, s3) =>
          let v := Vector id emb (deref (heap s3) l) in
          let r_upsert := svc_upsert w ix namespace v in
          Outcome
            (match r_upsert with
             | Ok _ => Ok id
             | Raise e => Raise e
             end)
            s3 [embed_ev; IndexUpsert ix namespace v r_upsert]
      end
  end.

End ClosedForms.

(** The index handle a call was made on (the embedding call has none). *)
Definition handle_of (ev : event) : option index :=
  match ev with
  | DescribeIndexStats ix _ => Some ix
  | IndexQuery ix _ _ _ _ => Some ix
  | IndexUpsert ix _ _ _ => Some ix
  | EmbeddingsCreate _ _ _ => None
  end.

Definition is_stats_call (ev : event) : bool :=
  match ev with DescribeIndexStats _ _ => true | _ => false end.

(** ** insert_text.py: the command line entry point [main]

    [argparse] is not modelled: [main] starts from the namespace that
    [parse_args] returns. The positional [text], [--index-name] (which has
    a default) and [--namespace] (default [""]) are strings; the options
    without a default are [None] or a string, and the two [append] options
    are [None] or a list of strings. *)

Record insert_cli_args := InsertCliArgs {
  cli_text : string;
  cli_metadata_key : option (list string);
  cli_metadata_value : option (list string);
  cli_api_key : option string;
  cli_openai_api_key : option string;
  cli_index_name : string;
  cli_namespace : string;
  cli_pinecone_host : option string
}.

Definition py_of_option (o : option string) : pyval :=
  match o with
  | Some v => PyStr v
  | None => PyNone
  end.

(** Truth value of an [append] option: [None] and the empty list are
    falsy. *)
Definition list_truthy (o : option (list string)) : bool :=
  match o with
  | Some (_ :: _) => true
  | _ => false
  end.

(** [for key, value in pairs: metadata[key] = value]. *)
Fixpoint setitems (d : pyval) (pairs : list (string * string)) : M unit :=
  match pairs with
  | [] => ret tt
  | (key, value) :: rest => setitem d key (PyStr value);; setitems d rest
  end.

Section CommandLine.

Context (w : world).

Definition insert_text_main (args : insert_cli_args) : M unit :=
  do metadata <- new_dict;
  do proceed <-
    (if list_truthy (cli_metadata_key args)
        && list_truthy (cli_metadata_value args)
     then
       let keys := default [] (cli_metadata_key args) in
       let values := default [] (cli_metadata_value args) in
       if negb (length keys =? length values)%nat then
         print "Error: Number of metadata keys and values must match";;
         ret false
       else
         setitems metadata (combine keys values);;
         ret true
     else ret true);
  if proceed then
    try_except_Exception
      (do vector_id <-
         insert_text w (PyStr (cli_text args)) metadata
           (py_of_option (cli_api_key args))
           (PyStr (cli_index_name args))
           (PyStr (cli_namespace args))
           (py_of_option (cli_openai_api_key args))
           (py_of_option (cli_pinecone_host args));
       print "Successfully inserted text into Pinecone";;
       print ("Vector ID: " +:+ vector_id);;
       print ("Index: " +:+ cli_index_name args);;
       print ("Namespace: "
              +:+ (if String.eqb (cli_namespace args) "" then "default"
                   else cli_namespace args)))
      (fun e => print ("Error: " +:+ exn_msg e))
  else ret tt.

End CommandLine.

(** The pairs [main] writes into the metadata: none when an option is
    missing, and no answer when the two lists differ in length. *)
Definition cli_metadata_pairs (args : insert_cli_args)
    : option (list (string * string)) :=
  if list_truthy (cli_metadata_key args)
     && list_truthy (cli_metadata_value args)
  then
    let keys := default [] (cli_metadata_key args) in
    let values := default [] (cli_metadata_value args) in
    if negb (length keys =? length values)%nat then None
    else Some (combine keys values)
  else Some [].

(** The dictionary obtained by writing the pairs from first to last. *)
Definition dict_of_pairs (pairs : list (string * string))
    (d : gmap string pyval) : gmap string pyval :=
  fold_left (fun d kv => <[kv.1 := PyStr kv.2]> d) pairs d.

(** ** app.py: the metadata shown with a result

    [{k: v for k, v in item['metadata'].items() if k != 'text'}]. *)
Definition meta_display (metadata : gmap string pyval) : gmap string pyval :=
  filter (fun kv => kv.1 <> "text") metadata.

(** [python insert_text.py "Vector ..." --metadata-key category
    --metadata-value x --metadata-key lang --metadata-value en
    --metadata-key category --metadata-value y --api-key pk
    --openai-api-key sk --index-name idx]. *)
Definition demo_cli_args : insert_cli_args :=
  InsertCliArgs "Vector databases store embeddings"
    (Some ["category"; "lang"; "category"]) (Some ["x"; "en"; "y"])
    (Some "pk") (Some "sk") "idx" "" None.

Definition no_count_world : world :=
  World ∅ demo_uuid
    (fun _ _ => Ok demo_embedding)
    (fun _ => Ok ∅)
    (fun _ _ _ _ => Ok (QueryResponse (Some demo_matches)))
    (fun _ _ _ => Ok tt).

Definition no_matches_world : world :=
  World ∅ demo_uuid
    (fun _ _ => Ok demo_embedding)
    (fun _ => Ok {[ "total_vector_count" := PyInt 3 ]})
    (fun _ _ _ _ => Ok (QueryResponse None))
    (fun _ _ _ => Ok tt).

Definition upsert_down_world : world :=
  World ∅ demo_uuid
    (fun _ _ => Ok demo_embedding)
    (fun _ => Ok {[ "total_vector_count" := PyInt 3 ]})
    (fun _ _ _ _ => Ok (QueryResponse (Some demo_matches)))
    (fun _ _ _ => Raise service_down).

(** * Properties *)

(** ** [strip] and whitespace-only strings *)

Lemma whitespace_only_lstrip s : whitespace_only (lstrip s) = whitespace_only s.
Proof.
  induction s as [|c s IH]; simpl; [reflexivity|].
  destruct (py_isspace c) eqn:Hc; simpl; [exact IH | now rewrite Hc].
Qed.

Lemma rstrip_empty_iff s : rstrip s = "" <-> whitespace_only s = true.
Proof.
  induction s as [|c s IH]; simpl; [tauto|].
  destruct (rstrip s) eqn:Hr.
  - destruct (py_isspace c); simpl; [tauto | split; discriminate].
  - split; [discriminate|].
    intros [_ Hs]%andb_true_iff. apply IH in Hs. discriminate.
Qed.

Lemma strip_empty_iff s : strip s = "" <-> whitespace_only s = true.
Proof.
  unfold strip. rewrite rstrip_empty_iff. now rewrite whitespace_only_lstrip.
Qed.

(** On strings, the validators' text guard is exactly "whitespace only". *)
Lemma text_rejected_str h s : text_rejected h (PyStr s) = whitespace_only s.
Proof.
  unfold text_rejected; simpl. rewrite negb_involutive, orb_false_r.
  destruct (whitespace_only s) eqn:Hw.
  - apply strip_empty_iff in Hw. rewrite Hw. simpl. apply orb_true_r.
  - destruct (String.eqb_spec (strip s) "") as [He|_].
    + apply strip_empty_iff in He. congruence.
    + destruct s; [discriminate | reflexivity].
Qed.

(** Anything that is not a string is rejected by the guard. *)
Lemma text_rejected_non_str h v : isinstance_str v = false -> text_rejected h v = true.
Proof.
  intros Hv. unfold text_rejected. rewrite Hv. simpl. apply orb_true_iff.
  left. apply orb_true_r.
Qed.

(** ** Running [bind] *)

Arguments bind : simpl never.
Arguments search_similar_texts : simpl never.
Arguments insert_text : simpl never.
Arguments search_index : simpl never.
Arguments insert_record : simpl never.

Lemma outcome_eta {A} (o : outcome A) :
  Outcome (res o) (final o) (calls o) = o.
Proof. now destruct o. Qed.

Lemma bind_ok {A B} (m : M A) (k : A -> M B) s a :
  res (m s) = Ok a ->
  bind m k s =
  Outcome (res (k a (final (m s)))) (final (k a (final (m s))))
    (calls (m s) ++ calls (k a (final (m s)))).
Proof. intros H. unfold bind. now rewrite H. Qed.

Lemma bind_raise {A B} (m : M A) (k : A -> M B) s e :
  res (m s) = Raise e ->
  bind m k s = Outcome (Raise e) (final (m s)) (calls (m s)).
Proof. intros H. unfold bind. now rewrite H. Qed.

(** A step that succeeds without a call hands over to its continuation. *)
Lemma bind_quiet {A B} (m : M A) (k : A -> M B) s a s' :
  m s = Outcome (Ok a) s' [] -> bind m k s = k a s'.
Proof. intros H. unfold bind. rewrite H. simpl. apply outcome_eta. Qed.

(** A step that succeeds after some calls puts them in front. *)
Lemma bind_step {A B} (m : M A) (k : A -> M B) s a s' c :
  m s = Outcome (Ok a) s' c ->
  bind m k s = Outcome (res (k a s')) (final (k a s')) (c ++ calls (k a s')).
Proof. intros H. unfold bind. now rewrite H. Qed.

(** A step that raises ends the run. *)
Lemma bind_stop {A B} (m : M A) (k : A -> M B) s e s' c :
  m s = Outcome (Raise e) s' c -> bind m k s = Outcome (Raise e) s' c.
Proof. intros H. unfold bind. now rewrite H. Qed.

(** ** The set-up phase makes no call *)

Lemma resolve_index_name_run index_name s :
  resolve_index_name index_name s
  = Outcome (Ok (resolved_index_name s index_name)) s [].
Proof.
  unfold resolve_index_name, resolved_index_name.
  now destruct (is_none index_name).
Qed.

Lemma py_or_getenv_run a name s :
  py_or a (getenv name) s = Outcome (Ok (or_getenv s a name)) s [].
Proof.
  unfold py_or, or_getenv, getenv, ret. now destruct (truthy (heap s) a).
Qed.

Lemma connect_eq api_key index_name openai_api_key pinecone_host s :
  connect api_key index_name openai_api_key pinecone_host s
  = Outcome (connected s api_key index_name openai_api_key pinecone_host) s [].
Proof.
  unfold connect, connected.
  rewrite (bind_quiet _ _ _ _ _ (py_or_getenv_run api_key _ s)).
  rewrite (bind_quiet _ _ _ _ _ (py_or_getenv_run openai_api_key _ s)).
  rewrite (bind_quiet _ _ _ _ _ (py_or_getenv_run pinecone_host _ s)).
  rewrite (bind_quiet get_heap _ s (heap s) s eq_refl).
  destruct (negb (truthy (heap s) (or_getenv s api_key "PINECONE_API_KEY")));
    [reflexivity|].
  destruct (negb (truthy (heap s) (or_getenv s openai_api_key "OPENAI_API_KEY")));
    [reflexivity|].
  now rewrite (bind_quiet (make_index _ _ _) _ s _ s eq_refl).
Qed.

Lemma connect_run api_key index_name openai_api_key pinecone_host s :
  final (connect api_key index_name openai_api_key pinecone_host s) = s
  /\ calls (connect api_key index_name openai_api_key pinecone_host s) = [].
Proof. now rewrite connect_eq. Qed.

Section Validation.

Context (w : world).

(** A run stopped by the validator: nothing is called, nothing changes. *)
Lemma search_validation_failure q top_k api_key index_name ns okey host s e :
  validate_search_params (heap s) q top_k api_key
    (resolved_index_name s index_name) = Raise e ->
  search_similar_texts w q top_k api_key index_name ns okey host s
  = Outcome (Raise e) s [].
Proof.
  intros Hv. unfold search_similar_texts.
  rewrite (bind_quiet _ _ _ _ _ (resolve_index_name_run index_name s)).
  rewrite (bind_quiet get_heap _ s (heap s) s eq_refl).
  apply bind_stop. unfold lift_result. now rewrite Hv.
Qed.

Lemma insert_validation_failure text md api_key index_name ns okey host s e :
  validate_insert_params (heap s) text md api_key
    (resolved_index_name s index_name) = Raise e ->
  insert_text w text md api_key index_name ns okey host s
  = Outcome (Raise e) s [].
Proof.
  intros Hv. unfold insert_text.
  rewrite (bind_quiet _ _ _ _ _ (resolve_index_name_run index_name s)).
  rewrite (bind_quiet get_heap _ s (heap s) s eq_refl).
  apply bind_stop. unfold lift_result. now rewrite Hv.
Qed.

(** C1. For every empty or whitespace-only text, [insert_text] and
    [search_similar_texts] both raise a [ValueError] and the log of calls
    to the embedding service and to the vector store is empty; the state
    is left as it was. *)
Theorem blank_text_rejected_without_calls t :
  whitespace_only t = true ->
  forall a1 a2 a3 a4 a5 a6 s,
    (let o := insert_text w (PyStr t) a1 a2 a3 a4 a5 a6 s in
     res o = Raise (Exn ValueError "Text cannot be empty and must be a string")
     /\ calls o = [] /\ final o = s)
    /\
    (let o := search_similar_texts w (PyStr t) a1 a2 a3 a4 a5 a6 s in
     res o = Raise (Exn ValueError
                      "Query text cannot be empty and must be a string")
     /\ calls o = [] /\ final o = s).
Proof.
  intros Hw a1 a2 a3 a4 a5 a6 s. split; simpl.
  - erewrite insert_validation_failure; [now simpl|].
    unfold validate_insert_params. now rewrite text_rejected_str, Hw.
  - erewrite search_validation_failure; [now simpl|].
    unfold validate_search_params. now rewrite text_rejected_str, Hw.
Qed.

End Validation.

(** ** Kinds of validation error *)

Section TopK.

Context (w : world).

(** C6, as amended. For every search call whose query text is a non-blank
    string, a [top_k] that is not an instance of [int] raises a
    [TypeError]; for every search call whatsoever, an [int] [top_k] that
    is zero or negative raises a [ValueError]. In both cases the log of
    service calls is empty, and the two classes are different. *)
Theorem top_k_error_kinds q top_k a3 a4 a5 a6 a7 s :
  let o := search_similar_texts w q top_k a3 a4 a5 a6 a7 s in
  ((exists t, q = PyStr t /\ whitespace_only t = false) ->
   isinstance_int top_k = false ->
   res o = Raise (Exn TypeError "top_k must be an integer") /\ calls o = [])
  /\
  (isinstance_int top_k = true -> (int_value top_k <= 0)%Z ->
   exists msg, res o = Raise (Exn ValueError msg) /\ calls o = [])
  /\ ValueError <> TypeError.
Proof.
  simpl. split; [|split; [|discriminate]].
  - intros (t & -> & Ht) Hk.
    erewrite search_validation_failure; [now simpl|].
    unfold validate_search_params. now rewrite text_rejected_str, Ht, Hk.
  - intros Hk Hle.
    destruct (text_rejected (heap s) q) eqn:Hq.
    + eexists. erewrite search_validation_failure; [now simpl|].
      unfold validate_search_params. now rewrite Hq.
    + eexists. erewrite search_validation_failure; [now simpl|].
      unfold validate_search_params. rewrite Hq, Hk. simpl.
      apply Z.leb_le in Hle. now rewrite Hle.
Qed.

End TopK.

(** C6 fails as first stated: with an empty query the text check comes
    first, so a non-integer [top_k] is answered with a [ValueError]. *)
Lemma top_k_type_error_counterexample :
  ~ (forall q top_k,
       isinstance_int top_k = false ->
       exists msg,
         res (search_similar_texts demo_world q top_k (PyStr "pk")
                (PyStr "idx") (PyStr "") (PyStr "sk") PyNone demo_state)
         = Raise (Exn TypeError msg)).
Proof.
  intros H. destruct (H (PyStr "") (PyStr "5") eq_refl) as [msg Hm].
  vm_compute in Hm. discriminate Hm.
Qed.

Lemma top_k_error_kinds_witness :
  res (search_similar_texts demo_world (PyStr "vector databases")
         (PyStr "invalid") (PyStr "pk") (PyStr "idx") (PyStr "") (PyStr "sk")
         PyNone demo_state)
  = Raise (Exn TypeError "top_k must be an integer")
  /\ exists msg,
       res (search_similar_texts demo_world (PyStr "vector databases")
              (PyInt (-1)) (PyStr "pk") (PyStr "idx") (PyStr "") (PyStr "sk")
              PyNone demo_state)
       = Raise (Exn ValueError msg).
Proof.
  split.
  - apply (top_k_error_kinds demo_world (PyStr "vector databases")
             (PyStr "invalid") (PyStr "pk") (PyStr "idx") (PyStr "")
             (PyStr "sk") PyNone demo_state).
    + exists "vector databases". split; reflexivity.
    + reflexivity.
  - destruct (top_k_error_kinds demo_world (PyStr "vector databases")
                (PyInt (-1)) (PyStr "pk") (PyStr "idx") (PyStr "")
                (PyStr "sk") PyNone demo_state) as (_ & H & _).
    destruct (H eq_refl ltac:(simpl; lia)) as (msg & Hm & _).
    exists msg. exact Hm.
Defined.

(** ** Splitting a run into its two halves *)

Section Runs.

Context (w : world).

(** [search_similar_texts] as its two halves: validation and set-up, which
    make no call, then [search_index] from the state left by
    [load_dotenv]. *)
Lemma search_similar_texts_eq q top_k api_key index_name ns okey host s :
  search_similar_texts w q top_k api_key index_name ns okey host s
  = let s1 := set_environ (fun env => env ∪ dotenv_file w) s in
    let name := resolved_index_name s index_name in
    match validate_search_params (heap s) q top_k api_key name with
    | Raise e => Outcome (Raise e) s []
    | Ok _ =>
        match connected s1 api_key name okey host with
        | Raise e => Outcome (Raise e) s1 []
        | Ok c => search_index w (fst c) (snd c) q top_k ns s1
        end
    end.
Proof.
  cbv zeta.
  destruct (validate_search_params (heap s) q top_k api_key
              (resolved_index_name s index_name)) as [[]|e] eqn:Hv.
  2:{ now apply search_validation_failure. }
  unfold search_similar_texts.
  rewrite (bind_quiet _ _ _ _ _ (resolve_index_name_run index_name s)).
  rewrite (bind_quiet get_heap _ s (heap s) s eq_refl).
  rewrite (bind_quiet (lift_result _) _ s tt s
             (f_equal (fun r => Outcome r s []) Hv)).
  rewrite (bind_quiet (load_dotenv w) _ s tt _ eq_refl).
  set (s1 := set_environ _ s).
  destruct (connected s1 api_key _ okey host) as [c|e] eqn:Hr.
  - rewrite (bind_quiet _ _ s1 c s1); [reflexivity|].
    now rewrite connect_eq, Hr.
  - apply bind_stop. now rewrite connect_eq, Hr.
Qed.

(** [insert_text] as its two halves; it has no [load_dotenv]. *)
Lemma insert_text_eq text md api_key index_name ns okey host s :
  insert_text w text md api_key index_name ns okey host s
  = let name := resolved_index_name s index_name in
    match validate_insert_params (heap s) text md api_key name with
    | Raise e => Outcome (Raise e) s []
    | Ok _ =>
        match connected s api_key name okey host with
        | Raise e => Outcome (Raise e) s []
        | Ok c => insert_record w (fst c) (snd c) text md ns s
        end
    end.
Proof.
  cbv zeta.
  destruct (validate_insert_params (heap s) text md api_key
              (resolved_index_name s index_name)) as [[]|e] eqn:Hv.
  2:{ now apply insert_validation_failure. }
  unfold insert_text.
  rewrite (bind_quiet _ _ _ _ _ (resolve_index_name_run index_name s)).
  rewrite (bind_quiet get_heap _ s (heap s) s eq_refl).
  rewrite (bind_quiet (lift_result _) _ s tt s
             (f_equal (fun r => Outcome r s []) Hv)).
  destruct (connected s api_key _ okey host) as [c|e] eqn:Hr.
  - rewrite (bind_quiet _ _ s c s); [reflexivity|].
    now rewrite connect_eq, Hr.
  - apply bind_stop. now rewrite connect_eq, Hr.
Qed.

(** A search either stops before any call with an exception, or it is a
    run of [search_index]. *)
Lemma search_run q top_k api_key index_name ns okey host s :
  let out := search_similar_texts w q top_k api_key index_name ns okey host s in
  (exists e s', out = Outcome (Raise e) s' [])
  \/ (exists ix key,
        validate_search_params (heap s) q top_k api_key
          (resolved_index_name s index_name) = Ok tt
        /\ out = search_index w ix key q top_k ns
                   (set_environ (fun env => env ∪ dotenv_file w) s)).
Proof.
  cbv zeta. rewrite search_similar_texts_eq. cbv zeta.
  destruct (validate_search_params _ _ _ _ _) as [[]|e]; [|left; eauto].
  destruct (connected _ _ _ _ _) as [[ix key]|e]; [|left; eauto].
  right. exists ix, key. split; reflexivity.
Qed.

(** An insert either stops before any call with an exception and an
    unchanged state, or it is a run of [insert_record] from that state. *)
Lemma insert_run text md api_key index_name ns okey host s :
  let out := insert_text w text md api_key index_name ns okey host s in
  (exists e, out = Outcome (Raise e) s [])
  \/ (exists ix key,
        validate_insert_params (heap s) text md api_key
          (resolved_index_name s index_name) = Ok tt
        /\ out = insert_record w ix key text md ns s).
Proof.
  cbv zeta. rewrite insert_text_eq. cbv zeta.
  destruct (validate_insert_params _ _ _ _ _) as [[]|e]; [|left; eauto].
  destruct (connected _ _ _ _ _) as [[ix key]|e]; [|left; eauto].
  right. exists ix, key. split; reflexivity.
Qed.

End Runs.

(** ** The search pipeline after validation *)

Ltac unfold_stage :=
  unfold search_index, insert_record, index_is_empty, try_except_Exception,
    bind, describe_index_stats, embed_text_openai, index_query, index_upsert,
    uuid4_str, new_dict, setitem, print, ret in *;
  simpl in *.

Ltac pick_event :=
  repeat match goal with
    | H : In _ [] |- _ => destruct H
    | H : In _ (_ :: _) |- _ => destruct H as [H|H]; simplify_eq
    | H : In _ (_ ++ _) |- _ => apply in_app_or in H; destruct H as [H|H]
    end.

Section SearchIndex.

Context (w : world).

(** What [search_index] logs and returns, by the answer of the stats
    call, of the embedder and of the query. *)
Lemma search_index_cases ix key q top_k ns s :
  let out := search_index w ix key q top_k ns s in
  let stats_ev := DescribeIndexStats ix (svc_describe_index_stats w ix) in
  let embed_ev := EmbeddingsCreate key q (svc_embed w key q) in
  (out = Outcome (Ok []) s [stats_ev]
   /\ exists stats,
        svc_describe_index_stats w ix = Ok stats
        /\ py_eq_zero (default (PyInt 0) (stats !! "total_vector_count"))
           = true)
  \/ (exists e, svc_describe_index_stats w ix = Raise e
                /\ is_Exception e = false
                /\ out = Outcome (Raise e) s [stats_ev])
  \/ ((forall stats,
         svc_describe_index_stats w ix = Ok stats ->
         py_eq_zero (default (PyInt 0) (stats !! "total_vector_count"))
         = false)
      /\ (forall e, svc_describe_index_stats w ix = Raise e ->
                    is_Exception e = true
                    /\ stdout (final out)
                       = stdout s ++ ["Error fetching index stats: " +:+ exn_msg e])
      /\ heap (final out) = heap s
      /\ ((exists e, svc_embed w key q = Raise e
                     /\ res out = Raise e
                     /\ calls out = [stats_ev; embed_ev])
          \/ (exists v, svc_embed w key q = Ok v
                /\ let query_ev :=
                     IndexQuery ix ns v top_k (svc_query w ix ns v top_k) in
                   calls out = [stats_ev; embed_ev; query_ev]
                   /\ match svc_query w ix ns v top_k with
                      | Ok results =>
                          res out
                          = Ok (normalize_matches (matches_or_empty results))
                      | Raise e => res out = Raise e
                      end))).
Proof.
  simpl. unfold_stage.
  destruct (svc_describe_index_stats w ix) as [stats|e] eqn:Hs; simpl.
  - destruct (py_eq_zero (default (PyInt 0) (stats !! "total_vector_count")))
      eqn:Hz; simpl.
    + left. eauto.
    + right. right. split; [intros ? [= <-]; exact Hz|].
      split; [intros ? [=]|].
      destruct (svc_embed w key q) as [v|e] eqn:He; simpl.
      * destruct (svc_query w ix ns v top_k) eqn:Hq; simpl;
          (split; [reflexivity|]); right; exists v; rewrite Hq; auto.
      * split; [reflexivity|]. left. eauto.
  - destruct (is_Exception e) eqn:Hx; simpl.
    + right. right. split; [intros ? [=]|].
      destruct (svc_embed w key q) as [v|e'] eqn:He; simpl.
      * destruct (svc_query w ix ns v top_k) eqn:Hq; simpl;
          (split; [intros ? [= <-]; auto|]); (split; [reflexivity|]);
          right; exists v; rewrite Hq; auto.
      * split; [intros ? [= <-]; auto|]. split; [reflexivity|].
        left. eauto.
    + right. left. eauto.
Qed.

End SearchIndex.

(** ** Result normalisation *)

Lemma normalize_matches_acc (ms : list raw_match) (acc : list search_result) :
  fold_left (fun similar_items m => similar_items ++ [normalize_match m]) ms acc
  = acc ++ map normalize_match ms.
Proof.
  revert acc. induction ms as [|m ms IH]; intros acc; simpl.
  - now rewrite app_nil_r.
  - rewrite IH, <- app_assoc. reflexivity.
Qed.

(** The append loop builds the list of the normalised matches, in order. *)
Lemma normalize_matches_map (ms : list raw_match) :
  normalize_matches ms = map normalize_match ms.
Proof. unfold normalize_matches. now rewrite normalize_matches_acc. Qed.

Lemma matches_or_empty_some (ms : list raw_match) :
  matches_or_empty (QueryResponse (Some ms)) = ms.
Proof. now destruct ms. Qed.

(** C8. A raw match whose metadata has no ["text"] entry (or that has no
    metadata at all) is normalised, without any error, to a result whose
    text is the sentinel ["No text available"]. *)
Theorem missing_text_gives_sentinel (m : raw_match) :
  (forall md, match_metadata m = Some md -> md !! "text" = None) ->
  sr_text (normalize_match m) = PyStr "No text available".
Proof.
  intros H. unfold normalize_match. simpl.
  destruct (match_metadata m) as [md|]; simpl.
  - now rewrite (H md eq_refl).
  - now rewrite lookup_empty.
Qed.

Lemma missing_text_gives_sentinel_witness :
  sr_text (normalize_match (RawMatch "m2" score_080
                              (Some {[ "category" := PyStr "x" ]})))
  = PyStr "No text available".
Proof.
  apply (missing_text_gives_sentinel
           (RawMatch "m2" score_080 (Some {[ "category" := PyStr "x" ]}))).
  intros md [= <-]. reflexivity.
Defined.

(** ** Search: short circuit, ordering *)

Section Search.

Context (w : world).

(** C5. In every search call in which the index answers the stats call
    with [total_vector_count] equal to 0, the result is the empty list and
    the log holds no call to the embedding service and no query. *)
Theorem empty_index_short_circuit q top_k api_key index_name ns okey host s
    ix stats :
  let out := search_similar_texts w q top_k api_key index_name ns okey host s in
  In (DescribeIndexStats ix (Ok stats)) (calls out) ->
  stats !! "total_vector_count" = Some (PyInt 0) ->
  res out = Ok []
  /\ forall ev, In ev (calls out) ->
                is_embed_call ev = false /\ is_query_call ev = false.
Proof.
  cbv zeta.
  destruct (search_run w q top_k api_key index_name ns okey host s)
    as [(e & s' & ->)|(ix0 & key & _ & ->)]; [intros []|].
  set (s1 := set_environ _ s).
  destruct (search_index_cases w ix0 key q top_k ns s1)
    as [(-> & _)|[(e & He & _ & ->)|(Hz & _ & _ & Hrest)]]; cbn [res final calls].
  - intros _ _. split; [reflexivity|]. intros ev [<-|[]]. now split.
  - rewrite He. intros [[=]|[]].
  - intros Hin Hst. exfalso.
    assert (Hstats : svc_describe_index_stats w ix0 = Ok stats).
    { destruct Hrest as [(e & _ & _ & Hc)|(v & _ & Hc & _)];
        rewrite Hc in Hin; pick_event; congruence. }
    apply Hz in Hstats. rewrite Hst in Hstats. discriminate Hstats.
Qed.

(** C7. In every search call in which the store answers the query with a
    list of matches, the result has one item per match, in the store's
    order: item [i] is the normalisation of match [i], so the lists of
    identifiers and of scores are those of the store, unchanged. *)
Theorem search_results_mirror_matches q top_k api_key index_name ns okey
    host s ix ns' v k ms :
  let out := search_similar_texts w q top_k api_key index_name ns okey host s in
  In (IndexQuery ix ns' v k (Ok (QueryResponse (Some ms)))) (calls out) ->
  exists results,
    res out = Ok results
    /\ results = map normalize_match ms
    /\ length results = length ms
    /\ map sr_similarity_score results = map match_score ms
    /\ map sr_id results = map match_id ms.
Proof.
  cbv zeta.
  destruct (search_run w q top_k api_key index_name ns okey host s)
    as [(e & s' & ->)|(ix0 & key & _ & ->)]; [intros []|].
  set (s1 := set_environ _ s).
  destruct (search_index_cases w ix0 key q top_k ns s1)
    as [(-> & _)|[(e & _ & _ & ->)|(_ & _ & _ & Hrest)]]; cbn [res final calls].
  - intros [[=]|[]].
  - intros [[=]|[]].
  - destruct Hrest as [(e & _ & _ & Hc)|(v0 & _ & Hc & Hres)];
      rewrite Hc; intros [[=]|[[=]|Hin]]; [destruct Hin|].
    destruct Hin as [[= ? ? ? ? Hq]|[]]. subst. simpl in Hres.
    rewrite Hq in Hres. exists (map normalize_match ms).
    rewrite Hres, matches_or_empty_some, normalize_matches_map.
    rewrite length_map, !map_map. simpl. auto.
Qed.

End Search.

Lemma empty_index_short_circuit_witness :
  let out := search_similar_texts empty_index_world (PyStr "vector databases")
               (PyInt 5) (PyStr "pk") (PyStr "idx") (PyStr "") (PyStr "sk")
               PyNone demo_state in
  res out = Ok []
  /\ forall ev, In ev (calls out) ->
                is_embed_call ev = false /\ is_query_call ev = false.
Proof.
  apply (empty_index_short_circuit empty_index_world
           (PyStr "vector databases") (PyInt 5) (PyStr "pk") (PyStr "idx")
           (PyStr "") (PyStr "sk") PyNone demo_state
           (Index (PyStr "pk") (PyStr "idx") None)
           {[ "total_vector_count" := PyInt 0 ]}).
  - left. reflexivity.
  - reflexivity.
Defined.

Lemma search_results_mirror_matches_witness :
  exists results,
    res (search_similar_texts demo_world (PyStr "vector databases")
           (PyInt 3) (PyStr "pk") (PyStr "idx") (PyStr "") (PyStr "sk")
           PyNone demo_state) = Ok results
    /\ results = map normalize_match demo_matches
    /\ length results = length demo_matches
    /\ map sr_similarity_score results = map match_score demo_matches
    /\ map sr_id results = map match_id demo_matches.
Proof.
  apply (search_results_mirror_matches demo_world
           (PyStr "vector databases") (PyInt 3) (PyStr "pk") (PyStr "idx")
           (PyStr "") (PyStr "sk") PyNone demo_state
           (Index (PyStr "pk") (PyStr "idx")
              (Some (PyStr "https://demo.pinecone.io")))
           (PyStr "") demo_embedding (PyInt 3) demo_matches).
  right. right. left. reflexivity.
Defined.

(** ** The insert pipeline after validation *)

Section InsertRecord.

Context (w : world).

Lemma deref_insert (h : pyheap) (l : loc) (d : gmap string pyval) :
  deref (<[l := d]> h) l = d.
Proof. unfold deref. now rewrite lookup_insert_eq. Qed.

Lemma setitem_dict_run l k v s :
  setitem (PyDict l) k v s
  = Outcome (Ok tt)
      (set_heap (fun h => <[l := <[k := v]> (deref h l)]> h) s) [].
Proof. reflexivity. Qed.

(** The last two statements of [insert_text]. *)
Lemma upsert_stage_run ix ns id emb md s :
  bind (index_upsert w ix ns id emb md) (fun _ => ret id) s
  = let v := Vector id emb (dict_contents (heap s) md) in
    Outcome (match svc_upsert w ix ns v with
             | Ok _ => Ok id
             | Raise e => Raise e
             end) s [IndexUpsert ix ns v (svc_upsert w ix ns v)].
Proof.
  unfold bind, index_upsert, ret. cbn [res final calls].
  destruct (svc_upsert w ix ns _); cbn [res final calls app];
    now rewrite ?app_nil_r.
Qed.

(** What [insert_record] logs, returns and leaves in the heap, by the
    answer of the embedder and of the upsert. *)
Lemma insert_record_cases ix key text md ns s :
  is_none md = true \/ isinstance_dict md = true ->
  let out := insert_record w ix key text md ns s in
  let id := uuid_source w (uuid_counter s) in
  let embed_ev := EmbeddingsCreate key text (svc_embed w key text) in
  (exists e, svc_embed w key text = Raise e
             /\ res out = Raise e
             /\ calls out = [embed_ev]
             /\ heap (final out) = heap s)
  \/ (exists emb,
        svc_embed w key text = Ok emb
        /\ let v := Vector id emb
                      (<["text" := text]> (dict_contents (heap s) md)) in
           calls out = [embed_ev; IndexUpsert ix ns v (svc_upsert w ix ns v)]
           /\ (forall l, md = PyDict l ->
                 heap (final out)
                 = <[l := <["text" := text]> (deref (heap s) l)]> (heap s))
           /\ match svc_upsert w ix ns v with
              | Ok _ => res out = Ok id
              | Raise e => res out = Raise e
              end).
Proof.
  intros Hmd. cbv zeta. unfold insert_record.
  rewrite (bind_quiet (uuid4_str w) _ s _ _ eq_refl).
  destruct (svc_embed w key text) as [emb|e] eqn:He.
  2:{ left. exists e. split; [reflexivity|].
      rewrite (bind_stop (embed_text_openai w text key) _ _ e
                 (set_openai_api_key key (set_uuid_counter (S (uuid_counter s)) s))
                 [EmbeddingsCreate key text (Raise e)]);
        [now cbn|unfold embed_text_openai; now rewrite He]. }
  right. exists emb. split; [reflexivity|].
  rewrite (bind_step (embed_text_openai w text key) _ _ emb
             (set_openai_api_key key (set_uuid_counter (S (uuid_counter s)) s))
             [EmbeddingsCreate key text (Ok emb)]);
    [|unfold embed_text_openai; now rewrite He].
  destruct md; simpl in Hmd; destruct Hmd as [[=]|[=]].
  - cbn [is_none].
    rewrite (bind_quiet new_dict _ _ _ _ eq_refl).
    rewrite (bind_quiet _ _ _ _ _ (setitem_dict_run _ _ _ _)).
    rewrite upsert_stage_run.
    cbn [res final calls app heap set_heap set_openai_api_key
           set_uuid_counter dict_contents].
    rewrite !deref_insert.
    split; [reflexivity|]. split; [intros ? [=]|].
    now destruct (svc_upsert w ix ns _).
  - cbn [is_none].
    rewrite (bind_quiet (ret _) _ _ _ _ eq_refl).
    rewrite (bind_quiet _ _ _ _ _ (setitem_dict_run _ _ _ _)).
    rewrite upsert_stage_run.
    cbn [res final calls app heap set_heap set_openai_api_key
           set_uuid_counter dict_contents].
    rewrite !deref_insert.
    split; [reflexivity|]. split; [intros ? [= <-]; reflexivity|].
    now destruct (svc_upsert w ix ns _).
Qed.

End InsertRecord.

(** ** Insert: payload, identifier, aliasing, failures *)

Lemma validate_insert_metadata h text md api_key index_name :
  validate_insert_params h text md api_key index_name = Ok tt ->
  is_none md = true \/ isinstance_dict md = true.
Proof.
  unfold validate_insert_params.
  destruct (text_rejected h text); [discriminate|].
  destruct (is_none md); [now left|].
  destruct (isinstance_dict md); [now right|discriminate].
Qed.

Section Insert.

Context (w : world).

(** C4. For every insert of text [text] with the caller's metadata
    mapping [M] (the empty mapping when no metadata is passed): every
    upsert sent to the store carries [M] with ["text"] bound to [text]
    (whatever [M] had under that key) and the identifier just drawn from
    [uuid4]; when insert returns, it returns that identifier, after exactly
    such an upsert has succeeded; and a validated insert whose credentials
    are found and whose two service calls succeed does return it. *)
Theorem insert_upserts_merged_metadata text md api_key index_name ns okey
    host s M :
  (md = PyNone /\ M = ∅) \/ (exists l, md = PyDict l /\ heap s !! l = Some M) ->
  let out := insert_text w text md api_key index_name ns okey host s in
  let id := uuid_source w (uuid_counter s) in
  (forall ix ns' v r,
     In (IndexUpsert ix ns' v r) (calls out) ->
     vector_metadata v = <["text" := text]> M
     /\ vector_id_of v = id /\ ns' = ns)
  /\ (forall id',
        res out = Ok id' ->
        id' = id
        /\ exists ix emb,
             In (IndexUpsert ix ns
                   (Vector id emb (<["text" := text]> M)) (Ok tt))
               (calls out))
  /\ (forall ix key emb,
        validate_insert_params (heap s) text md api_key
          (resolved_index_name s index_name) = Ok tt ->
        connected s api_key (resolved_index_name s index_name) okey host
        = Ok (ix, key) ->
        svc_embed w key text = Ok emb ->
        svc_upsert w ix ns (Vector id emb (<["text" := text]> M)) = Ok tt ->
        res out = Ok id
        /\ calls out
           = [EmbeddingsCreate key text (Ok emb);
              IndexUpsert ix ns (Vector id emb (<["text" := text]> M))
                (Ok tt)]).
Proof.
  intros HM. cbv zeta.
  assert (Hc : dict_contents (heap s) md = M).
  { destruct HM as [[-> ->]|(l & -> & Hl)]; [reflexivity|].
    simpl. unfold deref. now rewrite Hl. }
  rewrite insert_text_eq. cbv zeta.
  destruct (validate_insert_params (heap s) text md api_key
              (resolved_index_name s index_name)) as [[]|e] eqn:Hv.
  2:{ cbn [res final calls]. split; [intros ? ? ? ? []|].
      split; [intros ? [=]|intros ? ? ? [=]]. }
  destruct (connected s api_key (resolved_index_name s index_name) okey host)
    as [[ix0 key0]|e] eqn:Hconn.
  2:{ cbn [res final calls]. split; [intros ? ? ? ? []|].
      split; [intros ? [=]|intros ? ? ? _ [=]]. }
  cbn [fst snd]. apply validate_insert_metadata in Hv.
  destruct (insert_record_cases w ix0 key0 text md ns s Hv)
    as [(e & He & Hr & Hcalls & _)|(emb & He & Hcalls & _ & Hr)].
  - rewrite Hr, Hcalls. split; [intros ? ? ? ? [[=]|[]]|].
    split; [intros ? [=]|]. intros ? ? ? _ [= <- <-] He'. congruence.
  - rewrite Hcalls, Hc in *. split; [|split].
    + intros ? ? ? ? [[=]|[[= <- <- <- _]|[]]]. simpl. auto.
    + intros id' Hid.
      destruct (svc_upsert w ix0 ns _) as [[]|e] eqn:Hu;
        rewrite Hr in Hid; [|discriminate Hid].
      injection Hid as <-. split; [reflexivity|].
      exists ix0, emb. right. left. reflexivity.
    + intros ? ? ? _ [= <- <-] He' Hu.
      rewrite He in He'. injection He' as <-. rewrite He.
      rewrite Hu in *. now split.
Qed.

(** C9. In every insert call in which the embedding call fails, the log
    holds no upsert: the failure is what insert raises, and the heap is as
    it was before the call. *)
Theorem failed_embed_attempts_no_upsert text md api_key index_name ns okey
    host s key input e :
  let out := insert_text w text md api_key index_name ns okey host s in
  In (EmbeddingsCreate key input (Raise e)) (calls out) ->
  (forall ev, In ev (calls out) -> is_upsert_call ev = false)
  /\ res out = Raise e
  /\ heap (final out) = heap s.
Proof.
  cbv zeta.
  destruct (insert_run w text md api_key index_name ns okey host s)
    as [(e' & ->)|(ix0 & key0 & Hv & ->)]; [intros []|].
  apply validate_insert_metadata in Hv.
  destruct (insert_record_cases w ix0 key0 text md ns s Hv)
    as [(e' & He & Hr & Hcalls & Hh)|(emb & He & Hcalls & _)];
    rewrite Hcalls.
  - intros [[= _ _ Hev]|[]]. rewrite He in Hev. injection Hev as ->.
    split; [|now split]. intros ev [<-|[]]. reflexivity.
  - intros [[= _ _ Hev]|[[=]|[]]]. rewrite He in Hev. discriminate Hev.
Qed.

(** C10. When insert is given the caller's dictionary (the object at
    address [l], holding [M]) and returns, that very object holds [M] with
    ["text"] bound to the inserted text: the dictionary is updated in
    place, no copy is made. *)
Theorem insert_mutates_caller_metadata text api_key index_name ns okey host
    s l M id :
  let out := insert_text w text (PyDict l) api_key index_name ns okey host s in
  heap s !! l = Some M ->
  res out = Ok id ->
  heap (final out) !! l = Some (<["text" := text]> M).
Proof.
  cbv zeta. intros Hl.
  destruct (insert_run w text (PyDict l) api_key index_name ns okey host s)
    as [(e & ->)|(ix0 & key & Hv & ->)]; [intros [=]|].
  apply validate_insert_metadata in Hv.
  destruct (insert_record_cases w ix0 key text (PyDict l) ns s Hv)
    as [(e & _ & Hr & _)|(emb & _ & _ & Hh & _)].
  - rewrite Hr. intros [=].
  - intros _. rewrite (Hh l eq_refl), lookup_insert_eq.
    unfold deref. now rewrite Hl.
Qed.

End Insert.

Lemma insert_upserts_merged_metadata_witness :
  let text := PyStr "Vector databases store embeddings" in
  let M : gmap string pyval :=
    {[ "category" := PyStr "x"; "text" := PyStr "other" ]} in
  let out := insert_text demo_world text (PyDict 1) (PyStr "pk") (PyStr "idx")
               (PyStr "") PyNone PyNone demo_state in
  heap demo_state !! 1%positive = Some M
  /\ res out = Ok (demo_uuid 0)
  /\ calls out
     = [EmbeddingsCreate (PyStr "sk-env") text (Ok demo_embedding);
        IndexUpsert (Index (PyStr "pk") (PyStr "idx") None) (PyStr "")
          (Vector (demo_uuid 0) demo_embedding (<["text" := text]> M))
          (Ok tt)].
Proof.
  cbv zeta. split; [reflexivity|].
  destruct (insert_upserts_merged_metadata demo_world
              (PyStr "Vector databases store embeddings") (PyDict 1)
              (PyStr "pk") (PyStr "idx") (PyStr "") PyNone PyNone demo_state
              {[ "category" := PyStr "x"; "text" := PyStr "other" ]})
    as (_ & _ & H).
  - right. exists 1%positive. split; reflexivity.
  - apply (H (Index (PyStr "pk") (PyStr "idx") None) (PyStr "sk-env")
             demo_embedding); reflexivity.
Defined.

Lemma failed_embed_attempts_no_upsert_witness :
  let out := insert_text embed_down_world (PyStr "some text") PyNone
               (PyStr "pk") (PyStr "idx") (PyStr "") (PyStr "sk") PyNone
               demo_state in
  (forall ev, In ev (calls out) -> is_upsert_call ev = false)
  /\ res out = Raise service_down
  /\ heap (final out) = heap demo_state.
Proof.
  apply (failed_embed_attempts_no_upsert embed_down_world (PyStr "some text")
           PyNone (PyStr "pk") (PyStr "idx") (PyStr "") (PyStr "sk") PyNone
           demo_state (PyStr "sk") (PyStr "some text") service_down).
  left. reflexivity.
Defined.

Lemma insert_mutates_caller_metadata_witness :
  heap (final (insert_text demo_world (PyStr "new text") (PyDict 1)
                 (PyStr "pk") (PyStr "idx") (PyStr "") (PyStr "sk") PyNone
                 demo_state)) !! 1%positive
  = Some (<["text" := PyStr "new text"]>
            {[ "category" := PyStr "x"; "text" := PyStr "other" ]}).
Proof.
  apply (insert_mutates_caller_metadata demo_world (PyStr "new text")
           (PyStr "pk") (PyStr "idx") (PyStr "") (PyStr "sk") PyNone
           demo_state 1%positive
           {[ "category" := PyStr "x"; "text" := PyStr "other" ]}
           (demo_uuid 0)).
  - reflexivity.
  - reflexivity.
Defined.

Lemma blank_text_rejected_without_calls_witness :
  whitespace_only "   " = true
  /\ res (insert_text demo_world (PyStr "   ") PyNone (PyStr "pk")
            (PyStr "idx") (PyStr "") (PyStr "sk") PyNone demo_state)
     = Raise (Exn ValueError "Text cannot be empty and must be a string").
Proof.
  split; [reflexivity|].
  apply (blank_text_rejected_without_calls demo_world "   " eq_refl PyNone
           (PyStr "pk") (PyStr "idx") (PyStr "") (PyStr "sk") PyNone
           demo_state).
Defined.

(** ** Failures of the external services *)

Section Failures.

Context (w : world).

(** C3, as amended. For every failure raised by an embedding, upsert or
    query call, the exception is what the entry point raises, unchanged.
    A failure of the stats call propagates in the same way when its class
    does not derive from [Exception]; when it does, search catches it,
    prints it and goes on to call the embedding service. *)
Theorem service_failures_propagate a1 a2 a3 a4 a5 a6 a7 s ev e :
  failure_of ev = Some e ->
  let ins := insert_text w a1 a2 a3 a4 a5 a6 a7 s in
  let out := search_similar_texts w a1 a2 a3 a4 a5 a6 a7 s in
  (In ev (calls ins) -> res ins = Raise e)
  /\ (In ev (calls out) ->
      is_embed_call ev = true \/ is_query_call ev = true
      \/ is_Exception e = false ->
      res out = Raise e)
  /\ (In ev (calls out) ->
      is_embed_call ev = false -> is_query_call ev = false ->
      is_Exception e = true ->
      stdout (final out)
      = stdout s ++ ["Error fetching index stats: " +:+ exn_msg e]
      /\ exists key r, In (EmbeddingsCreate key a1 r) (calls out)).
Proof.
  intros Hf. cbv zeta. split; [|split].
  - destruct (insert_run w a1 a2 a3 a4 a5 a6 a7 s)
      as [(e' & ->)|(ix0 & key & Hv & ->)]; [intros []|].
    apply validate_insert_metadata in Hv.
    destruct (insert_record_cases w ix0 key a1 a2 a5 s Hv)
      as [(e' & He & Hr & Hcalls & _)|(emb & He & Hcalls & _ & Hr)];
      rewrite Hcalls; intros Hin; pick_event; simpl in Hf.
    + rewrite He in Hf. congruence.
    + rewrite He in Hf. discriminate Hf.
    + destruct (svc_upsert w ix0 a5 _); congruence.
  - destruct (search_run w a1 a2 a3 a4 a5 a6 a7 s)
      as [(e' & s' & ->)|(ix0 & key & _ & ->)]; [intros []|].
    set (s1 := set_environ _ s).
    destruct (search_index_cases w ix0 key a1 a2 a5 s1)
      as [(-> & stats & Hs & _)|[(e' & Hs & Hx & ->)|(_ & Hx & _ & Hrest)]].
    + intros [<-|[]]. simpl in Hf. rewrite Hs in Hf. discriminate Hf.
    + intros [<-|[]] _. simpl in *. rewrite Hs in Hf. congruence.
    + destruct Hrest as [(e' & He & Hr & Hcalls)|(v & He & Hcalls & Hr)];
        rewrite Hcalls; intros Hin Hkind; pick_event; simpl in Hf.
      * destruct (svc_describe_index_stats w ix0) as [|e0] eqn:Hs;
          [discriminate Hf|]. injection Hf as ->.
        destruct (Hx e eq_refl) as [Hx' _].
        destruct Hkind as [[=]|[[=]|Hk]]. congruence.
      * rewrite He in Hf. congruence.
      * destruct (svc_describe_index_stats w ix0) as [|e0] eqn:Hs;
          [discriminate Hf|]. injection Hf as ->.
        destruct (Hx e eq_refl) as [Hx' _].
        destruct Hkind as [[=]|[[=]|Hk]]. congruence.
      * rewrite He in Hf. discriminate Hf.
      * destruct (svc_query w ix0 a5 v a2); congruence.
  - destruct (search_run w a1 a2 a3 a4 a5 a6 a7 s)
      as [(e' & s' & ->)|(ix0 & key & _ & ->)]; [intros []|].
    set (s1 := set_environ _ s).
    destruct (search_index_cases w ix0 key a1 a2 a5 s1)
      as [(-> & stats & Hs & _)|[(e' & Hs & Hx & ->)|(_ & Hx & _ & Hrest)]].
    + intros [<-|[]]. simpl in Hf. rewrite Hs in Hf. discriminate Hf.
    + intros [<-|[]] _ _ Hx'. simpl in Hf. rewrite Hs in Hf. congruence.
    + intros Hin Hne Hnq _.
      assert (Hs : svc_describe_index_stats w ix0 = Raise e).
      { destruct Hrest as [(e' & He & Hr & Hcalls)|(v & He & Hcalls & Hr)];
          rewrite Hcalls in Hin; pick_event; simpl in *; try discriminate;
          destruct (svc_describe_index_stats w ix0); congruence. }
      destruct (Hx e Hs) as [_ Hout]. split; [exact Hout|].
      destruct Hrest as [(e' & He & Hr & Hcalls)|(v & He & Hcalls & Hr)];
        rewrite Hcalls; eexists _, _; right; left; reflexivity.
Qed.

End Failures.

(** C3 fails as first stated: when the stats call raises an ordinary
    exception, search swallows it and returns the three results. *)
Lemma stats_failure_swallowed_counterexample :
  let out := search_similar_texts stats_down_world (PyStr "vector databases")
               (PyInt 3) (PyStr "pk") (PyStr "idx") (PyStr "") (PyStr "sk")
               PyNone demo_state in
  ~ (forall ev e, In ev (calls out) -> failure_of ev = Some e ->
                  res out = Raise e).
Proof.
  cbv zeta. intros H.
  specialize (H (DescribeIndexStats (Index (PyStr "pk") (PyStr "idx") None)
                   (Raise service_down))
                service_down (or_introl eq_refl) eq_refl).
  vm_compute in H. discriminate H.
Qed.

Lemma service_failures_propagate_witness :
  res (search_similar_texts embed_down_world (PyStr "vector databases")
         (PyInt 3) (PyStr "pk") (PyStr "idx") (PyStr "") (PyStr "sk") PyNone
         demo_state)
  = Raise service_down.
Proof.
  destruct (service_failures_propagate embed_down_world
              (PyStr "vector databases") (PyInt 3) (PyStr "pk") (PyStr "idx")
              (PyStr "") (PyStr "sk") PyNone demo_state
              (EmbeddingsCreate (PyStr "sk") (PyStr "vector databases")
                 (Raise service_down))
              service_down eq_refl) as (_ & H & _).
  apply H.
  - right. left. reflexivity.
  - left. reflexivity.
Defined.

(** ** Credentials *)

Section Credentials.

Context (w : world).

(** The store credential is checked on the argument alone, before the
    environment is consulted: a call that passes validation otherwise but
    has a falsy [api_key] argument raises "API key is required" whatever
    the environment holds. *)
Lemma store_credential_argument_required t top_k api_key index_name ns okey
    host s :
  whitespace_only t = false ->
  isinstance_int top_k = true -> (0 < int_value top_k)%Z ->
  truthy (heap s) api_key = false ->
  search_similar_texts w (PyStr t) top_k api_key index_name ns okey host s
  = Outcome (Raise (Exn ValueError "API key is required")) s [].
Proof.
  intros Ht Hk Hpos Ha. apply search_validation_failure.
  unfold validate_search_params. rewrite text_rejected_str, Ht, Hk, Ha.
  simpl. destruct (Z.leb_spec (int_value top_k) 0); [lia|reflexivity].
Qed.

(** The embedding credential does fall back on the environment: once the
    store credential argument is present, [connect] raises the missing
    OpenAI key error exactly when the argument is falsy and the
    environment variable is unset or empty. *)
Lemma embedding_credential_missing_iff api_key index_name okey host s :
  truthy (heap s) api_key = true ->
  res (connect api_key index_name okey host s)
  = Raise (Exn ValueError
      "OpenAI API key not provided and not found in environment variables")
  <-> truthy (heap s) okey = false
      /\ (environ s !! "OPENAI_API_KEY" = None
          \/ environ s !! "OPENAI_API_KEY" = Some "").
Proof.
  intros Ha. rewrite connect_eq. cbn [res]. unfold connected, or_getenv.
  rewrite Ha. cbn [negb]. rewrite Ha. cbn [negb].
  destruct (truthy (heap s) okey) eqn:Ho.
  - rewrite Ho. cbn [negb]. split; [discriminate|intros [[=] _]].
  - destruct (environ s !! "OPENAI_API_KEY") as [k|] eqn:Hk.
    + destruct k as [|c k]; cbn [truthy String.eqb negb].
      * split; auto.
      * split; [discriminate|]. intros [_ [[=]|[=]]].
    + cbn [truthy negb]. split; auto.
Qed.

End Credentials.

(** C2 does not hold of the code. The store credential is absent as an
    argument and present in the environment ([PINECONE_API_KEY] is
    ["pk-env"]), every other argument is valid, and both entry points
    still raise the missing-credential error of the validator. *)
Theorem store_credential_environment_ignored :
  environ demo_state !! "PINECONE_API_KEY" = Some "pk-env"
  /\ res (search_similar_texts demo_world (PyStr "vector databases") (PyInt 5)
            PyNone (PyStr "idx") (PyStr "") (PyStr "sk") PyNone demo_state)
     = Raise (Exn ValueError "API key is required")
  /\ res (insert_text demo_world (PyStr "some text") PyNone
            PyNone (PyStr "idx") (PyStr "") (PyStr "sk") PyNone demo_state)
     = Raise (Exn ValueError "API key is required").
Proof. repeat split; reflexivity. Qed.


(** * Further properties of the modelled code *)

(** ** Closed forms of the second halves *)

Section ClosedFormProofs.

Context (w : world).

Lemma search_index_eq ix key q top_k ns s :
  search_index w ix key q top_k ns s
  = search_index_outcome w ix key q top_k ns s.
Proof.
  unfold search_index_outcome. unfold_stage.
  destruct (svc_describe_index_stats w ix) as [stats|e]; simpl.
  - destruct (py_eq_zero _); simpl; [reflexivity|].
    destruct (svc_embed w key q) as [v|e]; simpl; [|reflexivity].
    now destruct (svc_query w ix ns v top_k).
  - destruct (is_Exception e); simpl; [|reflexivity].
    destruct (svc_embed w key q) as [v|e']; simpl; [|reflexivity].
    now destruct (svc_query w ix ns v top_k).
Qed.

Lemma setitem_other_run d k v s :
  isinstance_dict d = false ->
  setitem d k v s
  = Outcome (Raise (Exn TypeError "object does not support item assignment"))
      s [].
Proof. now destruct d. Qed.

Lemma insert_record_eq ix key text md ns s :
  insert_record w ix key text md ns s
  = insert_record_outcome w ix key text md ns s.
Proof.
  unfold insert_record, insert_record_outcome.
  rewrite (bind_quiet (uuid4_str w) _ s _ _ eq_refl).
  set (s1 := set_uuid_counter _ s).
  destruct (svc_embed w key text) as [emb|e] eqn:He.
  2:{ apply bind_stop. unfold embed_text_openai. now rewrite He. }
  rewrite (bind_step (embed_text_openai w text key) _ s1 emb
             (set_openai_api_key key s1) [EmbeddingsCreate key text (Ok emb)]);
    [|unfold embed_text_openai; now rewrite He].
  set (s2 := set_openai_api_key key s1).
  assert (Hnone : forall (h : pyheap) (l : loc),
            <[l := <["text" := text]> (deref (<[l := ∅]> h) l)]> (<[l := ∅]> h)
            = <[l := {[ "text" := text ]}]> h).
  { intros h l. rewrite deref_insert, insert_insert_eq. reflexivity. }
  assert (Hother : forall d : pyval,
            is_none d = false -> isinstance_dict d = false ->
            bind (ret d)
              (fun metadata =>
                 bind (setitem metadata "text" text)
                   (fun _ =>
                      bind (index_upsert w ix ns
                              (uuid_source w (uuid_counter s)) emb metadata)
                        (fun _ => ret (uuid_source w (uuid_counter s))))) s2
            = Outcome
                (Raise (Exn TypeError "object does not support item assignment"))
                s2 []).
  { intros d _ Hd. rewrite (bind_quiet (ret d) _ s2 d s2 eq_refl).
    apply bind_stop. now apply setitem_other_run. }
  destruct md as [|b|z|bits|t|xs|l]; cbn [is_none metadata_written];
    try (rewrite Hother by reflexivity; reflexivity).
  - rewrite (bind_quiet new_dict _ s2 _ _ eq_refl).
    rewrite (bind_quiet _ _ _ _ _ (setitem_dict_run _ _ _ _)).
    rewrite upsert_stage_run.
    cbn [res final calls app heap set_heap set_openai_api_key
           set_uuid_counter dict_contents].
    rewrite !Hnone. unfold set_heap at 1. cbn [heap environ stdout
      openai_api_key_global uuid_counter set_heap]. rewrite Hnone.
    reflexivity.
  - rewrite (bind_quiet (ret (PyDict l)) _ s2 _ s2 eq_refl). cbv beta.
    rewrite (bind_quiet _ _ _ _ _ (setitem_dict_run l _ _ s2)).
    rewrite upsert_stage_run.
    reflexivity.
Qed.

End ClosedFormProofs.

(** ** The two entry points in closed form *)

Section EntryPoints.

Context (w : world).

Lemma search_similar_texts_closed q top_k api_key index_name ns okey host s :
  search_similar_texts w q top_k api_key index_name ns okey host s
  = let s1 := set_environ (fun env => env ∪ dotenv_file w) s in
    let name := resolved_index_name s index_name in
    match validate_search_params (heap s) q top_k api_key name with
    | Raise e => Outcome (Raise e) s []
    | Ok _ =>
        match connected s1 api_key name okey host with
        | Raise e => Outcome (Raise e) s1 []
        | Ok c => search_index_outcome w (fst c) (snd c) q top_k ns s1
        end
    end.
Proof.
  rewrite search_similar_texts_eq. cbv zeta.
  destruct (validate_search_params _ _ _ _ _); [|reflexivity].
  destruct (connected _ _ _ _ _); [|reflexivity].
  apply search_index_eq.
Qed.

Lemma insert_text_closed text md api_key index_name ns okey host s :
  insert_text w text md api_key index_name ns okey host s
  = let name := resolved_index_name s index_name in
    match validate_insert_params (heap s) text md api_key name with
    | Raise e => Outcome (Raise e) s []
    | Ok _ =>
        match connected s api_key name okey host with
        | Raise e => Outcome (Raise e) s []
        | Ok c => insert_record_outcome w (fst c) (snd c) text md ns s
        end
    end.
Proof.
  rewrite insert_text_eq. cbv zeta.
  destruct (validate_insert_params _ _ _ _ _); [|reflexivity].
  destruct (connected _ _ _ _ _); [|reflexivity].
  apply insert_record_eq.
Qed.

End EntryPoints.

(** ** What the validators accept *)

Lemma text_accepted_iff h v :
  text_rejected h v = false
  <-> exists t, v = PyStr t /\ whitespace_only t = false.
Proof.
  split.
  - intros H. destruct (isinstance_str v) eqn:Hs.
    + destruct v; try discriminate Hs. exists s. split; [reflexivity|].
      now rewrite <- (text_rejected_str h).
    + rewrite (text_rejected_non_str h v Hs) in H. discriminate H.
  - intros (t & -> & Ht). now rewrite text_rejected_str.
Qed.

(** What a passed validation tells about the arguments. *)
Lemma search_params_accepted h q top_k api_key index_name :
  validate_search_params h q top_k api_key index_name = Ok tt ->
  (exists t, q = PyStr t /\ whitespace_only t = false)
  /\ truthy h api_key = true /\ truthy h index_name = true.
Proof.
  unfold validate_search_params.
  destruct (text_rejected h q) eqn:Hq; [discriminate|].
  destruct (negb (isinstance_int top_k)); [discriminate|].
  destruct (int_value top_k <=? 0)%Z; [discriminate|].
  destruct (truthy h api_key); [|discriminate].
  destruct (truthy h index_name); [|discriminate].
  intros _. split; [|split; reflexivity]. now apply text_accepted_iff in Hq.
Qed.

Lemma insert_params_accepted h text md api_key index_name :
  validate_insert_params h text md api_key index_name = Ok tt ->
  (exists t, text = PyStr t /\ whitespace_only t = false)
  /\ truthy h api_key = true /\ truthy h index_name = true.
Proof.
  unfold validate_insert_params.
  destruct (text_rejected h text) eqn:Hq; [discriminate|].
  destruct (negb (is_none md) && negb (isinstance_dict md)); [discriminate|].
  destruct (truthy h api_key); [|discriminate].
  destruct (truthy h index_name); [|discriminate].
  intros _. split; [|split; reflexivity]. now apply text_accepted_iff in Hq.
Qed.

(** [validate_search_params] returns without raising exactly when the query
    is a string with a non-whitespace character, [top_k] is an [int]
    instance greater than zero, and the API key and the index name are
    truthy. *)
Theorem validate_search_params_ok_iff h q top_k api_key index_name :
  validate_search_params h q top_k api_key index_name = Ok tt
  <-> (exists t, q = PyStr t /\ whitespace_only t = false)
      /\ isinstance_int top_k = true /\ (0 < int_value top_k)%Z
      /\ truthy h api_key = true /\ truthy h index_name = true.
Proof.
  rewrite <- (text_accepted_iff h q). unfold validate_search_params.
  destruct (text_rejected h q); [split; [discriminate|intros [[=] _]]|].
  destruct (isinstance_int top_k); cbn [negb];
    [|split; [discriminate|intros (_ & [=] & _)]].
  destruct (Z.leb_spec (int_value top_k) 0);
    [split; [discriminate|intros (_ & _ & ? & _); lia]|].
  destruct (truthy h api_key); cbn [negb];
    [|split; [discriminate|intros (_ & _ & _ & [=] & _)]].
  destruct (truthy h index_name); cbn [negb];
    [|split; [discriminate|intros (_ & _ & _ & _ & [=])]].
  split; auto.
Qed.

(** [validate_insert_params] returns without raising exactly when the text
    is a string with a non-whitespace character, the metadata is [None] or a
    dictionary, and the API key and the index name are truthy. *)
Theorem validate_insert_params_ok_iff h text md api_key index_name :
  validate_insert_params h text md api_key index_name = Ok tt
  <-> (exists t, text = PyStr t /\ whitespace_only t = false)
      /\ (md = PyNone \/ exists l, md = PyDict l)
      /\ truthy h api_key = true /\ truthy h index_name = true.
Proof.
  rewrite <- (text_accepted_iff h text). unfold validate_insert_params.
  destruct (text_rejected h text); [split; [discriminate|intros [[=] _]]|].
  assert (Hmd : negb (is_none md) && negb (isinstance_dict md) = false
                <-> (md = PyNone \/ exists l, md = PyDict l)).
  { destruct md; cbn; split; eauto; try discriminate;
      intros [[=]|[? [=]]]. }
  destruct (negb (is_none md) && negb (isinstance_dict md)).
  { split; [discriminate|]. intros (_ & H & _). apply Hmd in H.
    discriminate H. }
  destruct (truthy h api_key); cbn [negb];
    [|split; [discriminate|intros (_ & _ & [=] & _)]].
  destruct (truthy h index_name); cbn [negb];
    [|split; [discriminate|intros (_ & _ & _ & [=])]].
  split; [|reflexivity]. intros _. repeat split; auto. now apply Hmd.
Qed.

Section TypeMismatch.

Context (w : world).

(** A text argument that is not a string ([None], a number, a list, a
    dictionary) is answered by both entry points with a [ValueError], not a
    [TypeError], before any call and without any change of state. *)
Theorem non_string_text_is_a_value_error v :
  isinstance_str v = false ->
  forall a1 a2 a3 a4 a5 a6 s,
    insert_text w v a1 a2 a3 a4 a5 a6 s
    = Outcome
        (Raise (Exn ValueError "Text cannot be empty and must be a string"))
        s []
    /\ search_similar_texts w v a1 a2 a3 a4 a5 a6 s
       = Outcome
           (Raise (Exn ValueError
                     "Query text cannot be empty and must be a string"))
           s [].
Proof.
  intros Hv a1 a2 a3 a4 a5 a6 s. split.
  - apply insert_validation_failure. unfold validate_insert_params.
    now rewrite (text_rejected_non_str _ _ Hv).
  - apply search_validation_failure. unfold validate_search_params.
    now rewrite (text_rejected_non_str _ _ Hv).
Qed.

(** With a valid text, metadata that is neither [None] nor a dictionary
    makes [insert_text] raise a [TypeError] before any call, whatever the
    credentials are. *)
Theorem non_dict_metadata_is_a_type_error t md a3 a4 a5 a6 a7 s :
  whitespace_only t = false ->
  is_none md = false -> isinstance_dict md = false ->
  insert_text w (PyStr t) md a3 a4 a5 a6 a7 s
  = Outcome (Raise (Exn TypeError "Metadata must be a dictionary")) s [].
Proof.
  intros Ht Hn Hd. apply insert_validation_failure.
  unfold validate_insert_params. now rewrite text_rejected_str, Ht, Hn, Hd.
Qed.

End TypeMismatch.

Lemma validate_search_params_ok_iff_witness :
  validate_search_params ∅ (PyStr "vector databases") (PyBool true)
    (PyStr "pk") (PyStr "idx") = Ok tt.
Proof.
  apply (validate_search_params_ok_iff ∅ (PyStr "vector databases")
           (PyBool true) (PyStr "pk") (PyStr "idx")).
  repeat split; try reflexivity. exists "vector databases". now split.
Defined.

Lemma validate_insert_params_ok_iff_witness :
  validate_insert_params ∅ (PyStr "some text") PyNone (PyStr "pk")
    (PyStr "idx") = Ok tt.
Proof.
  apply (validate_insert_params_ok_iff ∅ (PyStr "some text") PyNone
           (PyStr "pk") (PyStr "idx")).
  repeat split; try reflexivity; [exists "some text"; now split|now left].
Defined.

Lemma non_string_text_is_a_value_error_witness :
  isinstance_str (PyInt 42) = false
  /\ search_similar_texts demo_world (PyInt 42) (PyInt 5) (PyStr "pk")
       (PyStr "idx") (PyStr "") (PyStr "sk") PyNone demo_state
     = Outcome
         (Raise (Exn ValueError
                   "Query text cannot be empty and must be a string"))
         demo_state [].
Proof.
  split; [reflexivity|].
  apply (non_string_text_is_a_value_error demo_world (PyInt 42) eq_refl
           (PyInt 5) (PyStr "pk") (PyStr "idx") (PyStr "") (PyStr "sk")
           PyNone demo_state).
Defined.

Lemma non_dict_metadata_is_a_type_error_witness :
  insert_text demo_world (PyStr "some text") (PyList [PyStr "a"])
    (PyStr "pk") (PyStr "idx") (PyStr "") (PyStr "sk") PyNone demo_state
  = Outcome (Raise (Exn TypeError "Metadata must be a dictionary"))
      demo_state [].
Proof.
  apply (non_dict_metadata_is_a_type_error demo_world "some text"
           (PyList [PyStr "a"]) (PyStr "pk") (PyStr "idx") (PyStr "")
           (PyStr "sk") PyNone demo_state); reflexivity.
Defined.

(** ** What a search does and does not do *)

Ltac run_search w q top_k api_key index_name ns okey host s :=
  rewrite (search_similar_texts_closed w q top_k api_key index_name ns okey
             host s);
  cbv zeta;
  destruct (validate_search_params (heap s) q top_k api_key
              (resolved_index_name s index_name)) as [[]|?e] eqn:Hv;
  [ destruct (connected (set_environ (fun env => env ∪ dotenv_file w) s)
                api_key (resolved_index_name s index_name) okey host)
      as [[?ix ?key]|?e] eqn:Hconn;
    [ unfold search_index_outcome; cbn [fst snd];
      destruct (svc_describe_index_stats w _) as [?stats|?e] eqn:Hstats;
      [ destruct (py_eq_zero _) eqn:Hzero
      | destruct (is_Exception _) eqn:Hexc ];
      try (destruct (svc_embed w _ _) as [?v|?e] eqn:Hembed;
           [ destruct (svc_query w _ _ _ _) as [?r|?e] eqn:Hquery | ])
    | ]
  | ];
  cbn [res final calls].

Ltac in_log :=
  repeat match goal with
    | H : In _ [] |- _ => destruct H
    | H : In _ (_ :: _) |- _ => destruct H as [H|H]
    end;
  simplify_eq.

Section SearchFacts.

Context (w : world).

(** A search never writes: its log holds no upsert, and it leaves every
    dictionary of the heap and the identifier stream untouched. *)
Theorem search_never_writes q top_k api_key index_name ns okey host s :
  let out := search_similar_texts w q top_k api_key index_name ns okey host s in
  (forall ev, In ev (calls out) -> is_upsert_call ev = false)
  /\ heap (final out) = heap s
  /\ uuid_counter (final out) = uuid_counter s.
Proof.
  cbv zeta. run_search w q top_k api_key index_name ns okey host s;
    (split; [|split; reflexivity]); intros ev Hin; in_log; reflexivity.
Qed.

(** A search makes at most three calls, always in the same order: the
    stats call, then the embedding call, then the query; the query is made
    on the handle of the stats call, with the vector the embedder
    answered. *)
Theorem search_call_sequence q top_k api_key index_name ns okey host s :
  match calls (search_similar_texts w q top_k api_key index_name ns okey host s)
  with
  | [] => True
  | [DescribeIndexStats _ _] => True
  | [DescribeIndexStats _ _; EmbeddingsCreate _ _ (Raise _)] => True
  | [DescribeIndexStats ix _; EmbeddingsCreate _ _ (Ok v);
     IndexQuery ix' _ v' _ _] => ix' = ix /\ v' = v
  | _ => False
  end.
Proof.
  run_search w q top_k api_key index_name ns okey host s; auto.
Qed.

(** The keys of the stats answer are read with a default: an answer that
    has no [total_vector_count] entry counts as an empty index, so the
    search returns the empty list after the stats call alone. *)
Theorem missing_vector_count_short_circuits q top_k api_key index_name ns okey
    host s ix stats :
  let out := search_similar_texts w q top_k api_key index_name ns okey host s in
  In (DescribeIndexStats ix (Ok stats)) (calls out) ->
  stats !! "total_vector_count" = None ->
  res out = Ok [] /\ calls out = [DescribeIndexStats ix (Ok stats)].
Proof.
  cbv zeta. run_search w q top_k api_key index_name ns okey host s;
    intros Hin Hnone; in_log; try (split; reflexivity);
    rewrite Hnone in Hzero; discriminate Hzero.
Qed.

(** When the index reports a count that is an integer other than zero, the
    search goes on: the embedding service is called, for the query text. *)
Theorem non_empty_index_is_searched q top_k api_key index_name ns okey host s
    ix stats n :
  let out := search_similar_texts w q top_k api_key index_name ns okey host s in
  In (DescribeIndexStats ix (Ok stats)) (calls out) ->
  stats !! "total_vector_count" = Some (PyInt n) -> n <> 0%Z ->
  exists key r, In (EmbeddingsCreate key q r) (calls out).
Proof.
  cbv zeta. run_search w q top_k api_key index_name ns okey host s;
    intros Hin Hn Hne; in_log;
    try (eexists _, _; right; left; reflexivity).
  rewrite Hn in Hzero. apply Z.eqb_eq in Hzero. contradiction.
Qed.

(** [results.matches or []]: when the store answers the query with no
    match list at all, the search returns the empty list. *)
Theorem absent_match_list_gives_no_result q top_k api_key index_name ns okey
    host s ix ns' v k :
  let out := search_similar_texts w q top_k api_key index_name ns okey host s in
  In (IndexQuery ix ns' v k (Ok (QueryResponse None))) (calls out) ->
  res out = Ok [].
Proof.
  cbv zeta. run_search w q top_k api_key index_name ns okey host s;
    intros Hin; in_log; reflexivity.
Qed.

(** The query is made with the caller's namespace and [top_k] as given, and
    its vector is the embedding the service returned for the query text in
    the same run. *)
Theorem query_uses_the_callers_parameters q top_k api_key index_name ns okey
    host s ix ns' v k r :
  let out := search_similar_texts w q top_k api_key index_name ns okey host s in
  In (IndexQuery ix ns' v k r) (calls out) ->
  ns' = ns /\ k = top_k
  /\ exists key, In (EmbeddingsCreate key q (Ok v)) (calls out).
Proof.
  cbv zeta. run_search w q top_k api_key index_name ns okey host s;
    intros Hin; in_log;
    (split; [reflexivity|]); (split; [reflexivity|]);
    eexists; right; left; reflexivity.
Qed.

(** [load_dotenv] never overrides: after a search every variable that was
    set keeps its value; a search that passed validation has added the
    variables of the [.env] file that were not set, and a search stopped by
    the validator has left the environment as it was. *)
Theorem search_keeps_the_environment q top_k api_key index_name ns okey host s :
  let out := search_similar_texts w q top_k api_key index_name ns okey host s in
  (forall name value, environ s !! name = Some value ->
                      environ (final out) !! name = Some value)
  /\ (validate_search_params (heap s) q top_k api_key
        (resolved_index_name s index_name) = Ok tt ->
      environ (final out) = environ s ∪ dotenv_file w)
  /\ (validate_search_params (heap s) q top_k api_key
        (resolved_index_name s index_name) <> Ok tt ->
      final out = s).
Proof.
  cbv zeta. run_search w q top_k api_key index_name ns okey host s;
    (split; [intros name value Hname; cbn;
             try (apply lookup_union_Some_l); exact Hname|]);
    (split; [intros Hok|intros Hno]);
    try reflexivity; try discriminate Hok; try (now destruct Hno).
Qed.

End SearchFacts.

(** ** Which credentials reach the services *)

Lemma or_getenv_truthy s a name :
  truthy (heap s) a = true -> or_getenv s a name = a.
Proof. intros H. unfold or_getenv. now rewrite H. Qed.

Lemma or_getenv_falsy s a name :
  truthy (heap s) a = false ->
  truthy (heap s) (or_getenv s a name) = true ->
  exists v, environ s !! name = Some v /\ v <> ""
            /\ or_getenv s a name = PyStr v.
Proof.
  intros Ha. unfold or_getenv. rewrite Ha.
  destruct (environ s !! name) as [v|]; [|discriminate].
  destruct v as [|c v]; [discriminate|]. intros _. eauto.
Qed.

Lemma connected_ok s api_key index_name okey host ix key :
  connected s api_key index_name okey host = Ok (ix, key) ->
  index_api_key ix = or_getenv s api_key "PINECONE_API_KEY"
  /\ index_name_of ix = index_name
  /\ key = or_getenv s okey "OPENAI_API_KEY"
  /\ truthy (heap s) key = true.
Proof.
  unfold connected.
  destruct (truthy (heap s) (or_getenv s api_key "PINECONE_API_KEY"));
    cbn [negb]; [|discriminate].
  destruct (truthy (heap s) (or_getenv s okey "OPENAI_API_KEY")) eqn:Hk;
    cbn [negb]; [|discriminate].
  intros [= <- <-]. auto.
Qed.

Section Credentials2.

Context (w : world).

(** Every call to the store, from a search or from an insert, is made on a
    handle built with the [api_key] argument itself and with the index name
    given (or, when none is given, the one of the environment): the
    [PINECONE_API_KEY] variable is never what reaches the store. *)
Theorem store_handle_uses_the_argument a1 a2 api_key index_name ns okey host
    s ev ix :
  handle_of ev = Some ix ->
  In ev (calls (search_similar_texts w a1 a2 api_key index_name ns okey host s))
  \/ In ev (calls (insert_text w a1 a2 api_key index_name ns okey host s)) ->
  index_api_key ix = api_key
  /\ index_name_of ix = resolved_index_name s index_name.
Proof.
  intros Hh [Hin|Hin].
  - rewrite search_similar_texts_closed in Hin. cbv zeta in Hin.
    destruct (validate_search_params _ _ _ _ _) as [[]|e] eqn:Hv;
      [|destruct Hin].
    apply search_params_accepted in Hv as (_ & Ha & _).
    destruct (connected _ _ _ _ _) as [[ix0 key]|e] eqn:Hconn;
      [|destruct Hin].
    apply connected_ok in Hconn as (Hk & Hn & _).
    rewrite or_getenv_truthy in Hk by exact Ha.
    assert (ix = ix0); [|now subst].
    revert Hin. unfold search_index_outcome. cbn [fst snd].
    destruct (svc_describe_index_stats w ix0);
      [destruct (py_eq_zero _)|destruct (is_Exception _)];
      try (destruct (svc_embed w key a1));
      cbn [calls]; intros Hin; in_log; cbn in Hh; congruence.
  - rewrite insert_text_closed in Hin. cbv zeta in Hin.
    destruct (validate_insert_params _ _ _ _ _) as [[]|e] eqn:Hv;
      [|destruct Hin].
    apply insert_params_accepted in Hv as (_ & Ha & _).
    destruct (connected _ _ _ _ _) as [[ix0 key]|e] eqn:Hconn;
      [|destruct Hin].
    apply connected_ok in Hconn as (Hk & Hn & _).
    rewrite or_getenv_truthy in Hk by exact Ha.
    assert (ix = ix0); [|now subst].
    revert Hin. unfold insert_record_outcome. cbn [fst snd].
    destruct (svc_embed w key a1); [destruct (metadata_written _ _ _) as [[]|]|];
      cbn [calls]; intros Hin; in_log; cbn in Hh; congruence.
Qed.

(** The embedding service is called for the text given, with the
    [openai_api_key] argument when it is truthy and otherwise with the
    non-empty [OPENAI_API_KEY] of the environment, as it stands after
    [load_dotenv]: the explicit argument wins. *)
Theorem search_embedding_credential q top_k api_key index_name ns okey host s
    key input r :
  In (EmbeddingsCreate key input r)
    (calls (search_similar_texts w q top_k api_key index_name ns okey host s)) ->
  input = q
  /\ (truthy (heap s) okey = true -> key = okey)
  /\ (truthy (heap s) okey = false ->
      exists v, (environ s ∪ dotenv_file w) !! "OPENAI_API_KEY" = Some v
                /\ v <> "" /\ key = PyStr v).
Proof.
  rewrite search_similar_texts_closed. cbv zeta.
  destruct (validate_search_params _ _ _ _ _) as [[]|e]; [|intros []].
  destruct (connected _ _ _ _ _) as [[ix0 key0]|e] eqn:Hconn; [|intros []].
  apply connected_ok in Hconn as (_ & _ & Hk & Ht).
  unfold search_index_outcome. cbn [fst snd].
  assert (Hkey : (truthy (heap s) okey = true -> key0 = okey)
            /\ (truthy (heap s) okey = false ->
                exists v, (environ s ∪ dotenv_file w) !! "OPENAI_API_KEY"
                          = Some v /\ v <> "" /\ key0 = PyStr v)).
  { split; intros Ho.
    - rewrite Hk. now apply or_getenv_truthy.
    - rewrite Hk in Ht |- *.
      apply (or_getenv_falsy
               (set_environ (fun env => env ∪ dotenv_file w) s) okey
               "OPENAI_API_KEY" Ho Ht). }
  destruct (svc_describe_index_stats w ix0);
    [destruct (py_eq_zero _)|destruct (is_Exception _)];
    try (destruct (svc_embed w key0 q));
    cbn [calls]; intros Hin; in_log; auto.
Qed.

(** The same for an insert, which does not call [load_dotenv]: the
    environment is read as it is. *)
Theorem insert_embedding_credential text md api_key index_name ns okey host s
    key input r :
  In (EmbeddingsCreate key input r)
    (calls (insert_text w text md api_key index_name ns okey host s)) ->
  input = text
  /\ (truthy (heap s) okey = true -> key = okey)
  /\ (truthy (heap s) okey = false ->
      exists v, environ s !! "OPENAI_API_KEY" = Some v
                /\ v <> "" /\ key = PyStr v).
Proof.
  rewrite insert_text_closed. cbv zeta.
  destruct (validate_insert_params _ _ _ _ _) as [[]|e]; [|intros []].
  destruct (connected _ _ _ _ _) as [[ix0 key0]|e] eqn:Hconn; [|intros []].
  apply connected_ok in Hconn as (_ & _ & Hk & Ht).
  unfold insert_record_outcome. cbn [fst snd].
  assert (Hkey : (truthy (heap s) okey = true -> key0 = okey)
            /\ (truthy (heap s) okey = false ->
                exists v, environ s !! "OPENAI_API_KEY" = Some v
                          /\ v <> "" /\ key0 = PyStr v)).
  { split; intros Ho.
    - rewrite Hk. now apply or_getenv_truthy.
    - rewrite Hk in Ht |- *. now apply or_getenv_falsy. }
  destruct (svc_embed w key0 text);
    [destruct (metadata_written _ _ _) as [[]|]|];
    cbn [calls]; intros Hin; in_log; auto.
Qed.

(** [embed_text_openai] stores the credential in the module-global
    [openai.api_key]: after a run that called the embedding service the
    global holds the key of that call, and a run that did not call it leaves
    the global as it was. *)
Theorem embedding_call_sets_the_global_credential a1 a2 a3 a4 a5 a6 a7 s :
  let out := search_similar_texts w a1 a2 a3 a4 a5 a6 a7 s in
  let ins := insert_text w a1 a2 a3 a4 a5 a6 a7 s in
  (forall key input r,
     In (EmbeddingsCreate key input r) (calls out) ->
     openai_api_key_global (final out) = key)
  /\ ((forall ev, In ev (calls out) -> is_embed_call ev = false) ->
      openai_api_key_global (final out) = openai_api_key_global s)
  /\ (forall key input r,
        In (EmbeddingsCreate key input r) (calls ins) ->
        openai_api_key_global (final ins) = key)
  /\ ((forall ev, In ev (calls ins) -> is_embed_call ev = false) ->
      openai_api_key_global (final ins) = openai_api_key_global s).
Proof.
  cbv zeta. split; [|split; [|split]].
  - run_search w a1 a2 a3 a4 a5 a6 a7 s; intros ? ? ? Hin; in_log;
      reflexivity.
  - run_search w a1 a2 a3 a4 a5 a6 a7 s; intros Hno; try reflexivity;
      exfalso;
      match goal with
      | H : forall ev, In ev (_ :: ?e :: _) -> _ |- _ =>
          specialize (H e (or_intror (or_introl eq_refl))); discriminate H
      end.
  - rewrite insert_text_closed. cbv zeta.
    destruct (validate_insert_params _ _ _ _ _) as [[]|e]; [|intros ? ? ? []].
    destruct (connected _ _ _ _ _) as [[ix0 key0]|e]; [|intros ? ? ? []].
    unfold insert_record_outcome. cbn [fst snd].
    destruct (svc_embed w key0 a1);
      [destruct (metadata_written _ _ _) as [[l s3]|] eqn:Hm|];
      cbn [calls final]; intros ? ? ? Hin; in_log; try reflexivity.
    destruct a2; cbn in Hm; simplify_eq; reflexivity.
  - rewrite insert_text_closed. cbv zeta.
    destruct (validate_insert_params _ _ _ _ _) as [[]|e]; [|reflexivity].
    destruct (connected _ _ _ _ _) as [[ix0 key0]|e]; [|reflexivity].
    unfold insert_record_outcome. cbn [fst snd].
    destruct (svc_embed w key0 a1);
      [destruct (metadata_written _ _ _) as [[l s3]|]|];
      cbn [calls final]; intros Hno; exfalso;
      match goal with
      | H : forall ev, In ev (?e :: _) -> _ |- _ =>
          specialize (H e (or_introl eq_refl)); discriminate H
      end.
Qed.

End Credentials2.

(** ** What an insert does and does not do *)

Lemma metadata_written_spec md text s l s3 :
  metadata_written md text s = Some (l, s3) ->
  deref (heap s3) l = <["text" := text]> (dict_contents (heap s) md)
  /\ (forall l', l' <> l -> heap s3 !! l' = heap s !! l')
  /\ (md = PyNone -> heap s !! l = None)
  /\ (forall l0, md = PyDict l0 -> l = l0)
  /\ environ s3 = environ s /\ stdout s3 = stdout s
  /\ openai_api_key_global s3 = openai_api_key_global s
  /\ uuid_counter s3 = uuid_counter s.
Proof.
  destruct md; cbn [metadata_written]; intros [= <- <-];
    cbn [heap set_heap environ stdout openai_api_key_global uuid_counter
           dict_contents];
    rewrite deref_insert.
  - split; [reflexivity|]. split; [intros l' Hl; now rewrite lookup_insert_ne|].
    split; [|split; [intros ? [=]|auto]].
    intros _. apply not_elem_of_dom. apply is_fresh.
  - split; [reflexivity|]. split; [intros l' Hl; now rewrite lookup_insert_ne|].
    split; [intros [=]|]. split; [intros ? [= <-]; reflexivity|auto].
Qed.

Section InsertShape.

Context (w : world).

(** The three ways an insert can go: stopped before any call; stopped by a
    failing embedding call; or ended by the upsert, whatever it answers. *)
Lemma insert_text_shape text md api_key index_name ns okey host s :
  let out := insert_text w text md api_key index_name ns okey host s in
  let id := uuid_source w (uuid_counter s) in
  (exists e, out = Outcome (Raise e) s [])
  \/ exists ix key,
       let s2 := set_openai_api_key key
                   (set_uuid_counter (S (uuid_counter s)) s) in
       validate_insert_params (heap s) text md api_key
         (resolved_index_name s index_name) = Ok tt
       /\ ((exists e,
              out = Outcome (Raise e) s2 [EmbeddingsCreate key text (Raise e)])
           \/ (exists emb l s3 r,
                 svc_embed w key text = Ok emb
                 /\ metadata_written md text s2 = Some (l, s3)
                 /\ out = Outcome
                            (match r with
                             | Ok _ => Ok id
                             | Raise e => Raise e
                             end)
                            s3
                            [EmbeddingsCreate key text (Ok emb);
                             IndexUpsert ix ns
                               (Vector id emb (deref (heap s3) l)) r])).
Proof.
  cbv zeta. rewrite insert_text_closed. cbv zeta.
  destruct (validate_insert_params _ _ _ _ _) as [[]|e] eqn:Hv; [|eauto].
  destruct (connected _ _ _ _ _) as [[ix key]|e]; [|eauto].
  right. exists ix, key. split; [reflexivity|].
  unfold insert_record_outcome. cbn [fst snd].
  destruct (svc_embed w key text) as [emb|e]; [|eauto].
  right. apply validate_insert_metadata in Hv.
  destruct (metadata_written md text _) as [[l s3]|] eqn:Hm.
  - exists emb, l, s3, (svc_upsert w ix ns (Vector (uuid_source w (uuid_counter s)) emb (deref (heap s3) l))).
    auto.
  - destruct md; cbn in Hv, Hm; try discriminate Hm;
      destruct Hv as [[=]|[=]].
Qed.

End InsertShape.

Ltac run_insert w text md api_key index_name ns okey host s :=
  let Hv := fresh "Hv" in
  let Hembed := fresh "Hembed" in
  let Hm := fresh "Hm" in
  let Hout := fresh "Hout" in
  destruct (insert_text_shape w text md api_key index_name ns okey host s)
    as [(?e & Hout)
       |(?ix & ?key & Hv & [(?e & Hout)
                            |(?emb & ?l & ?s3 & ?r & Hembed & Hm & Hout)])];
  rewrite Hout; clear Hout; cbn [res final calls];
  [ | | apply metadata_written_spec in Hm ].

Section InsertFacts.

Context (w : world).

(** An insert never reads the store and makes at most two calls, in a fixed
    order: the embedding call for the text, then one upsert, in the
    caller's namespace, of the vector the embedder answered. *)
Theorem insert_call_sequence text md api_key index_name ns okey host s :
  match calls (insert_text w text md api_key index_name ns okey host s) with
  | [] => True
  | [EmbeddingsCreate _ input (Raise _)] => input = text
  | [EmbeddingsCreate _ input (Ok emb); IndexUpsert _ ns' v _] =>
      input = text /\ vector_values v = emb /\ ns' = ns
  | _ => False
  end.
Proof.
  run_insert w text md api_key index_name ns okey host s; auto.
Qed.

(** Given the caller's dictionary, an insert changes nothing in the heap
    but the ["text"] entry of that dictionary: every other dictionary and
    every other entry is as before, whether the insert returns or raises. *)
Theorem insert_touches_only_the_text_entry text l api_key index_name ns okey
    host s :
  let out := insert_text w text (PyDict l) api_key index_name ns okey host s in
  (forall l', l' <> l -> heap (final out) !! l' = heap s !! l')
  /\ (forall k, k <> "text" ->
        deref (heap (final out)) l !! k = deref (heap s) l !! k).
Proof.
  cbv zeta.
  run_insert w text (PyDict l) api_key index_name ns okey host s;
    try (split; reflexivity).
  destruct Hm as (Hd & Hframe & _ & Hl & _).
  specialize (Hl l eq_refl). subst l0. cbn in Hd, Hframe.
  split; [exact Hframe|]. intros k Hk. rewrite Hd.
  now rewrite lookup_insert_ne.
Qed.

(** Without metadata, an insert works on a dictionary of its own: every
    dictionary that was in the heap is still there, unchanged. *)
Theorem insert_without_metadata_keeps_the_heap text api_key index_name ns okey
    host s l d :
  let out := insert_text w text PyNone api_key index_name ns okey host s in
  heap s !! l = Some d ->
  heap (final out) !! l = Some d.
Proof.
  cbv zeta. intros Hl.
  run_insert w text PyNone api_key index_name ns okey host s;
    try exact Hl.
  destruct Hm as (_ & Hframe & Hnew & _). cbn in Hframe, Hnew.
  rewrite Hframe; [exact Hl|]. intros ->. rewrite (Hnew eq_refl) in Hl.
  discriminate Hl.
Qed.

(** The dictionary is updated before the upsert is sent: when the upsert
    fails, insert raises the store's error, and the caller's dictionary has
    its ["text"] entry rewritten all the same. *)
Theorem failed_upsert_leaves_the_text_entry text l api_key index_name ns okey
    host s M ix ns' v e :
  let out := insert_text w text (PyDict l) api_key index_name ns okey host s in
  heap s !! l = Some M ->
  In (IndexUpsert ix ns' v (Raise e)) (calls out) ->
  res out = Raise e
  /\ heap (final out) !! l = Some (<["text" := text]> M).
Proof.
  cbv zeta. intros HM.
  run_insert w text (PyDict l) api_key index_name ns okey host s;
    intros Hin; in_log.
  destruct Hm as (Hd & _ & _ & Hl & _).
  specialize (Hl l eq_refl). subst l0. split; [reflexivity|].
  cbn in Hd. unfold deref in Hd. rewrite HM in Hd. cbn in Hd.
  destruct (heap s3 !! l) as [d|] eqn:Hs3; cbn in Hd; [now subst|].
  exfalso. assert (H : (∅ : gmap string pyval) !! "text" = Some text)
    by (rewrite Hd; apply lookup_insert_eq).
  rewrite lookup_empty in H. discriminate H.
Qed.

(** The record sent to the store always has, under ["text"], the text given,
    which is a string with a non-whitespace character, and its values are
    what the embedding service answered for that very text. *)
Theorem stored_record_carries_its_text text md api_key index_name ns okey
    host s ix ns' v r :
  In (IndexUpsert ix ns' v r)
    (calls (insert_text w text md api_key index_name ns okey host s)) ->
  vector_metadata v !! "text" = Some text
  /\ (exists t, text = PyStr t /\ whitespace_only t = false)
  /\ exists key, svc_embed w key text = Ok (vector_values v).
Proof.
  run_insert w text md api_key index_name ns okey host s;
    intros Hin; in_log.
  destruct Hm as (Hd & _). cbn [vector_metadata vector_values].
  split; [rewrite Hd; apply lookup_insert_eq|].
  apply insert_params_accepted in Hv as (Ht & _).
  split; [exact Ht|eauto].
Qed.

(** Round trip through the store: if the store hands the metadata of an
    upserted record back as the metadata of a match, the normaliser shows
    the inserted text (never the sentinel) and the metadata untouched. *)
Theorem stored_text_round_trips text md api_key index_name ns okey host s
    ix ns' v r id score :
  In (IndexUpsert ix ns' v r)
    (calls (insert_text w text md api_key index_name ns okey host s)) ->
  normalize_match (RawMatch id score (Some (vector_metadata v)))
  = SearchResult id text score (vector_metadata v).
Proof.
  run_insert w text md api_key index_name ns okey host s;
    intros Hin; in_log.
  destruct Hm as (Hd & _). unfold normalize_match.
  cbn [match_metadata match_id match_score vector_metadata default
         from_option Datatypes.id].
  assert (Ht : deref (heap s3) l !! "text" = Some text)
    by (rewrite Hd; apply lookup_insert_eq).
  now rewrite Ht.
Qed.

(** Two inserts in a row that both return have drawn two consecutive
    identifiers of the stream, so they return different identifiers
    whenever the stream does not repeat itself there. *)
Theorem consecutive_inserts_draw_consecutive_ids
    t1 m1 k1 i1 n1 o1 h1 t2 m2 k2 i2 n2 o2 h2 s id1 id2 :
  let out1 := insert_text w t1 m1 k1 i1 n1 o1 h1 s in
  let out2 := insert_text w t2 m2 k2 i2 n2 o2 h2 (final out1) in
  res out1 = Ok id1 -> res out2 = Ok id2 ->
  id1 = uuid_source w (uuid_counter s)
  /\ id2 = uuid_source w (S (uuid_counter s))
  /\ (uuid_source w (uuid_counter s) <> uuid_source w (S (uuid_counter s)) ->
      id1 <> id2).
Proof.
  cbv zeta.
  assert (Hone : forall t m k i n o h s0 id,
            res (insert_text w t m k i n o h s0) = Ok id ->
            id = uuid_source w (uuid_counter s0)
            /\ uuid_counter (final (insert_text w t m k i n o h s0))
               = S (uuid_counter s0)).
  { intros t m k i n o h s0 id.
    run_insert w t m k i n o h s0; intros Hres; try discriminate Hres.
    destruct Hm as (_ & _ & _ & _ & _ & _ & _ & Hc).
    destruct r; [|discriminate Hres]. injection Hres as <-.
    split; [reflexivity|]. exact Hc. }
  intros H1 H2. apply Hone in H1 as [-> Hc]. apply Hone in H2 as [-> _].
  rewrite Hc. auto.
Qed.

End InsertFacts.

(** ** The command line entry point of insert_text.py *)

Lemma set_heap_twice (l : loc) (d d' : gmap string pyval) s :
  set_heap (fun h => <[l := d']> h) (set_heap (fun h => <[l := d]> h) s)
  = set_heap (fun h => <[l := d']> h) s.
Proof. unfold set_heap. cbn. now rewrite insert_insert_eq. Qed.

Lemma setitems_run l pairs d s :
  heap s !! l = Some d ->
  setitems (PyDict l) pairs s
  = Outcome (Ok tt)
      (set_heap (fun h => <[l := dict_of_pairs pairs d]> h) s) [].
Proof.
  revert d s. induction pairs as [|[k v] pairs IH]; intros d s Hl.
  - cbn. unfold ret, set_heap. rewrite (insert_id _ _ _ Hl). now destruct s.
  - cbn [setitems].
    rewrite (bind_quiet _ _ _ _ _ (setitem_dict_run l k (PyStr v) s)).
    rewrite (IH (<[k := PyStr v]> d)).
    + unfold set_heap.
      cbn [heap environ stdout openai_api_key_global uuid_counter].
      now rewrite insert_insert_eq.
    + cbn [heap set_heap]. unfold deref. rewrite Hl. apply lookup_insert_eq.
Qed.

Lemma dict_of_pairs_app pairs pairs' d :
  dict_of_pairs (pairs ++ pairs') d
  = dict_of_pairs pairs' (dict_of_pairs pairs d).
Proof. apply fold_left_app. Qed.

(** Writing pairs one after the other lets the later pair win: the result
    is the map of the reversed list, in which the first entry wins. *)
Lemma dict_of_pairs_later_wins pairs :
  dict_of_pairs pairs ∅
  = list_to_map (reverse (map (fun kv => (kv.1, PyStr kv.2)) pairs)).
Proof.
  induction pairs as [|[k v] pairs IH] using rev_ind; [reflexivity|].
  rewrite dict_of_pairs_app, map_app, reverse_app. cbn. now rewrite IH.
Qed.

Section CommandLineProofs.

Context (w : world).

Lemma success_report_run a b c d s :
  bind (print a) (fun _ => bind (print b) (fun _ =>
    bind (print c) (fun _ => print d))) s
  = Outcome (Ok tt)
      (set_stdout (fun out => (((out ++ [a]) ++ [b]) ++ [c]) ++ [d]) s) [].
Proof. reflexivity. Qed.

(** [main] as a function of what [insert_text] does on the dictionary that
    [main] has built. *)
Lemma insert_text_main_shape args s :
  let out := insert_text_main w args s in
  let l0 := fresh (dom (heap s)) in
  match cli_metadata_pairs args with
  | None =>
      out = Outcome (Ok tt)
              (set_stdout
                 (fun o =>
                    o ++ ["Error: Number of metadata keys and values must match"])
                 (set_heap (fun h => <[l0 := ∅]> h) s)) []
  | Some pairs =>
      let s1 := set_heap (fun h => <[l0 := dict_of_pairs pairs ∅]> h) s in
      let ins := insert_text w (PyStr (cli_text args)) (PyDict l0)
                   (py_of_option (cli_api_key args))
                   (PyStr (cli_index_name args))
                   (PyStr (cli_namespace args))
                   (py_of_option (cli_openai_api_key args))
                   (py_of_option (cli_pinecone_host args)) s1 in
      match res ins with
      | Ok id =>
          out = Outcome (Ok tt)
                  (set_stdout
                     (fun o =>
                        (((o ++ ["Successfully inserted text into Pinecone"])
                          ++ ["Vector ID: " +:+ id])
                         ++ ["Index: " +:+ cli_index_name args])
                        ++ ["Namespace: "
                            +:+ (if String.eqb (cli_namespace args) ""
                                 then "default" else cli_namespace args)])
                     (final ins))
                  (calls ins)
      | Raise e =>
          if is_Exception e then
            out = Outcome (Ok tt)
                    (set_stdout (fun o => o ++ ["Error: " +:+ exn_msg e])
                       (final ins))
                    (calls ins)
          else out = Outcome (Raise e) (final ins) (calls ins)
      end
  end.
Proof.
  cbv zeta. unfold insert_text_main, cli_metadata_pairs.
  rewrite (bind_quiet new_dict _ s _ _ eq_refl).
  set (l0 := fresh (dom (heap s))).
  set (s0 := set_heap (insert l0 ∅) s).
  assert (Hs0 : heap s0 !! l0 = Some ∅) by apply lookup_insert_eq.
  assert (Hgo : forall pairs,
    let s1 := set_heap (fun h => <[l0 := dict_of_pairs pairs ∅]> h) s in
    let ins := insert_text w (PyStr (cli_text args)) (PyDict l0)
                 (py_of_option (cli_api_key args))
                 (PyStr (cli_index_name args)) (PyStr (cli_namespace args))
                 (py_of_option (cli_openai_api_key args))
                 (py_of_option (cli_pinecone_host args)) s1 in
    forall k : string -> M unit,
    forall h : exn -> M unit,
    (forall id s', res (k id s') = Ok tt) ->
    try_except_Exception (bind (insert_text w (PyStr (cli_text args))
                 (PyDict l0) (py_of_option (cli_api_key args))
                 (PyStr (cli_index_name args)) (PyStr (cli_namespace args))
                 (py_of_option (cli_openai_api_key args))
                 (py_of_option (cli_pinecone_host args))) k) h s1
    = match res ins with
      | Ok id =>
          Outcome (res (k id (final ins))) (final (k id (final ins)))
            (calls ins ++ calls (k id (final ins)))
      | Raise e =>
          if is_Exception e then
            Outcome (res (h e (final ins))) (final (h e (final ins)))
              (calls ins ++ calls (h e (final ins)))
          else Outcome (Raise e) (final ins) (calls ins)
      end).
  { intros pairs s1 ins k h Hk. unfold try_except_Exception.
    destruct (res ins) as [id|e] eqn:Hr.
    - rewrite (bind_ok _ _ _ _ Hr). cbn [res]. rewrite Hk.
      fold ins. now rewrite Hk.
    - rewrite (bind_raise _ _ _ _ Hr). cbn [res final calls].
      unfold is_Exception at 1. fold (is_Exception e).
      now destruct (is_Exception e). }
  destruct (list_truthy (cli_metadata_key args)
            && list_truthy (cli_metadata_value args)).
  - cbv zeta.
    destruct (negb (length (default [] (cli_metadata_key args))
                    =? length (default [] (cli_metadata_value args)))%nat).
    + rewrite (bind_quiet (bind (print _) (fun _ => ret false)) _ s0 false
                 _ eq_refl).
      reflexivity.
    + rewrite (bind_quiet
                 (bind (setitems (PyDict l0) _) (fun _ => ret true)) _ s0 true
                 (set_heap (fun h => <[l0 := dict_of_pairs
                      (combine (default [] (cli_metadata_key args))
                         (default [] (cli_metadata_value args))) ∅]> h) s)).
      2:{ rewrite (bind_quiet _ _ _ _ _ (setitems_run l0 _ ∅ s0 Hs0)).
          unfold s0. now rewrite set_heap_twice. }
      rewrite Hgo by reflexivity. cbv zeta.
      destruct (res (insert_text _ _ _ _ _ _ _ _ _)) as [id|e];
        [|destruct (is_Exception e)];
        rewrite ?success_report_run; cbn [res final calls];
        now rewrite ?app_nil_r.
  - rewrite (bind_quiet (ret true) _ s0 true s0 eq_refl).
    change s0 with (set_heap (fun h => <[l0 := dict_of_pairs [] ∅]> h) s).
    rewrite Hgo by reflexivity. cbv zeta.
    destruct (res (insert_text _ _ _ _ _ _ _ _ _)) as [id|e];
      [|destruct (is_Exception e)];
      rewrite ?success_report_run; cbn [res final calls];
      now rewrite ?app_nil_r.
Qed.

End CommandLineProofs.

Section InsertRunFacts.

Context (w : world).

Lemma validate_insert_raises_Exception h text md api_key index_name e :
  validate_insert_params h text md api_key index_name = Raise e ->
  is_Exception e = true.
Proof.
  unfold validate_insert_params.
  repeat (match goal with
          | |- context [if ?b then _ else _] => destruct b
          end; try (intros [= <-]; reflexivity)).
  all: discriminate.
Qed.

Lemma connected_raises_Exception s api_key index_name okey host e :
  connected s api_key index_name okey host = Raise e ->
  is_Exception e = true.
Proof.
  unfold connected.
  repeat (match goal with
          | |- context [if negb ?b then _ else _] => destruct b; cbn [negb]
          end; try (intros [= <-]; reflexivity)).
  all: discriminate.
Qed.

(** An insert that raises either raises an [Exception] of its own checks,
    before any call, or raises what a service call raised. *)
Lemma insert_raise_origin text md api_key index_name ns okey host s e :
  let out := insert_text w text md api_key index_name ns okey host s in
  res out = Raise e ->
  (is_Exception e = true /\ calls out = [])
  \/ exists ev, In ev (calls out) /\ failure_of ev = Some e.
Proof.
  cbv zeta. rewrite insert_text_closed. cbv zeta.
  destruct (validate_insert_params _ _ _ _ _) as [[]|e0] eqn:Hv.
  2:{ intros [= <-]. left. split; [|reflexivity].
      now apply validate_insert_raises_Exception in Hv. }
  destruct (connected _ _ _ _ _) as [[ix key]|e0] eqn:Hc.
  2:{ intros [= <-]. left. split; [|reflexivity].
      now apply connected_raises_Exception in Hc. }
  unfold insert_record_outcome. cbn [fst snd].
  destruct (svc_embed w key text) as [emb|e0] eqn:He.
  2:{ intros [= <-]. right. eexists. split; [left; reflexivity|reflexivity]. }
  apply validate_insert_metadata in Hv.
  destruct md; cbn in Hv; try (destruct Hv as [[=]|[=]]);
    cbn [metadata_written];
    match goal with
    | |- context [svc_upsert w ?i ?n ?v] =>
        destruct (svc_upsert w i n v) as [[]|e0] eqn:Hu
    end; cbn [res calls]; intros [=]; subst;
    right; eexists; (split; [right; left; reflexivity|reflexivity]).
Qed.

(** What reaches the store in an upsert, and when an insert returns. *)
Lemma insert_upsert_facts text md api_key index_name ns okey host s :
  let out := insert_text w text md api_key index_name ns okey host s in
  (forall ix ns' v r,
     In (IndexUpsert ix ns' v r) (calls out) ->
     vector_metadata v = <["text" := text]> (dict_contents (heap s) md)
     /\ ns' = ns
     /\ (r = Ok tt -> res out = Ok (vector_id_of v)))
  /\ (forall id, res out = Ok id ->
        exists ix v, In (IndexUpsert ix ns v (Ok tt)) (calls out)
                     /\ vector_id_of v = id)
  /\ stdout (final out) = stdout s.
Proof.
  cbv zeta. run_insert w text md api_key index_name ns okey host s.
  - split; [intros ? ? ? ? []|]. split; [intros ? [=]|reflexivity].
  - split; [intros ? ? ? ? Hin; in_log|]. split; [intros ? [=]|reflexivity].
  - destruct Hm as (Hd & _ & _ & _ & _ & Hout & _).
    split; [|split; [|exact Hout]].
    + intros ? ? ? ? Hin; in_log. cbn [vector_metadata vector_id_of].
      split; [exact Hd|]. split; [reflexivity|]. now intros [= ->].
    + intros id Hid. destruct r as [[]|e]; [|discriminate Hid].
      injection Hid as <-. eexists _, _. split; [right; left; reflexivity|].
      reflexivity.
Qed.

Lemma insert_handle text md api_key index_name ns okey host s ev ix :
  In ev (calls (insert_text w text md api_key index_name ns okey host s)) ->
  handle_of ev = Some ix ->
  index_api_key ix = api_key
  /\ index_name_of ix = resolved_index_name s index_name.
Proof.
  rewrite insert_text_closed. cbv zeta.
  destruct (validate_insert_params _ _ _ _ _) as [[]|e] eqn:Hv; [|intros []].
  apply insert_params_accepted in Hv as (_ & Ha & _).
  destruct (connected _ _ _ _ _) as [[ix0 key]|e] eqn:Hconn; [|intros []].
  apply connected_ok in Hconn as (Hk & Hn & _).
  rewrite or_getenv_truthy in Hk by exact Ha.
  unfold insert_record_outcome. cbn [fst snd].
  destruct (svc_embed w key text); [destruct (metadata_written _ _ _) as [[]|]|];
    cbn [calls]; intros Hin Hh; in_log; cbn in Hh; simplify_eq; auto.
Qed.

End InsertRunFacts.

Section CommandLineFacts.

Context (w : world).

(** When both metadata options are given with different numbers of
    values, [main] prints the mismatch and stops: no service is called, no
    identifier is drawn, and [main] returns normally. *)
Theorem cli_length_mismatch_stops args s keys values :
  cli_metadata_key args = Some keys ->
  cli_metadata_value args = Some values ->
  keys <> [] -> values <> [] -> length keys <> length values ->
  let out := insert_text_main w args s in
  res out = Ok tt /\ calls out = []
  /\ stdout (final out)
     = stdout s ++ ["Error: Number of metadata keys and values must match"]
  /\ uuid_counter (final out) = uuid_counter s.
Proof.
  intros Hk Hv Hkn Hvn Hlen. cbv zeta.
  pose proof (insert_text_main_shape w args s) as Hshape. cbv zeta in Hshape.
  assert (Hp : cli_metadata_pairs args = None).
  { unfold cli_metadata_pairs. rewrite Hk, Hv.
    destruct keys; [contradiction|]. destruct values; [contradiction|].
    cbn [list_truthy andb default from_option Datatypes.id].
    apply Nat.eqb_neq in Hlen. now rewrite Hlen. }
  rewrite Hp in Hshape. rewrite Hshape. cbn. auto.
Qed.

Lemma cli_upsert_metadata args s pairs ix ns v r :
  cli_metadata_pairs args = Some pairs ->
  In (IndexUpsert ix ns v r) (calls (insert_text_main w args s)) ->
  vector_metadata v
  = <["text" := PyStr (cli_text args)]>
      (list_to_map (reverse (map (fun kv => (kv.1, PyStr kv.2)) pairs)))
  /\ ns = PyStr (cli_namespace args).
Proof.
  intros Hp.
  pose proof (insert_text_main_shape w args s) as Hshape. cbv zeta in Hshape.
  rewrite Hp in Hshape.
  set (s1 := set_heap _ s) in Hshape.
  set (ins := insert_text _ _ _ _ _ _ _ _ s1) in Hshape.
  assert (Hcalls : calls (insert_text_main w args s) = calls ins).
  { destruct (res ins) as [id|e]; [|destruct (is_Exception e)];
      now rewrite Hshape. }
  rewrite Hcalls. intros Hin.
  destruct (insert_upsert_facts w (PyStr (cli_text args))
              (PyDict (fresh (dom (heap s))))
              (py_of_option (cli_api_key args)) (PyStr (cli_index_name args))
              (PyStr (cli_namespace args))
              (py_of_option (cli_openai_api_key args))
              (py_of_option (cli_pinecone_host args)) s1) as (Hup & _).
  destruct (Hup _ _ _ _ Hin) as (Hmeta & Hns & _).
  split; [|exact Hns]. rewrite Hmeta. cbn [dict_contents].
  unfold s1. cbn [heap set_heap]. rewrite deref_insert.
  now rewrite dict_of_pairs_later_wins.
Qed.

(** The metadata [main] sends to the store: the pairs of options written
    in order, so that a repeated key keeps its last value, and then the
    text under ["text"], which replaces a ["text"] option if there is
    one. The record goes to the namespace given. *)
Theorem cli_metadata_later_pair_wins args s keys values ix ns v r :
  cli_metadata_key args = Some keys ->
  cli_metadata_value args = Some values ->
  length keys = length values ->
  In (IndexUpsert ix ns v r) (calls (insert_text_main w args s)) ->
  vector_metadata v
  = <["text" := PyStr (cli_text args)]>
      (list_to_map
         (reverse (map (fun kv => (kv.1, PyStr kv.2)) (combine keys values))))
  /\ ns = PyStr (cli_namespace args).
Proof.
  intros Hk Hv Hlen.
  assert (Hp : cli_metadata_pairs args = Some (combine keys values)).
  { unfold cli_metadata_pairs. rewrite Hk, Hv.
    destruct keys as [|k keys]; [reflexivity|].
    destruct values as [|x values]; [discriminate Hlen|].
    cbn [list_truthy andb default from_option Datatypes.id].
    apply Nat.eqb_eq in Hlen. now rewrite Hlen. }
  apply cli_upsert_metadata. exact Hp.
Qed.

(** A metadata option given without its counterpart is dropped without a
    word: the record is stored with the text as its only metadata. *)
Theorem cli_unpaired_metadata_is_dropped args s ix ns v r :
  cli_metadata_key args = None \/ cli_metadata_value args = None ->
  In (IndexUpsert ix ns v r) (calls (insert_text_main w args s)) ->
  vector_metadata v = {[ "text" := PyStr (cli_text args) ]}.
Proof.
  intros Hnone.
  assert (Hp : cli_metadata_pairs args = Some []).
  { unfold cli_metadata_pairs.
    destruct Hnone as [-> | ->]; cbn [list_truthy]; [reflexivity|].
    now rewrite andb_false_r. }
  pose proof (insert_text_main_shape w args s) as Hshape. cbv zeta in Hshape.
  rewrite Hp in Hshape.
  set (s1 := set_heap _ s) in Hshape.
  set (ins := insert_text _ _ _ _ _ _ _ _ s1) in Hshape.
  assert (Hcalls : calls (insert_text_main w args s) = calls ins).
  { destruct (res ins) as [id|e]; [|destruct (is_Exception e)];
      now rewrite Hshape. }
  rewrite Hcalls. intros Hin.
  destruct (insert_upsert_facts w (PyStr (cli_text args))
              (PyDict (fresh (dom (heap s))))
              (py_of_option (cli_api_key args)) (PyStr (cli_index_name args))
              (PyStr (cli_namespace args))
              (py_of_option (cli_openai_api_key args))
              (py_of_option (cli_pinecone_host args)) s1) as (Hup & _).
  destruct (Hup _ _ _ _ Hin) as (Hmeta & _).
  rewrite Hmeta. cbn [dict_contents]. unfold s1. cbn [heap set_heap].
  now rewrite deref_insert.
Qed.

(** [main] catches every [Exception]: it returns normally unless a service
    call raised something that is not an [Exception], which then passes
    through unchanged. *)
Theorem cli_only_non_exceptions_escape args s :
  let out := insert_text_main w args s in
  res out = Ok tt
  \/ exists e, res out = Raise e /\ is_Exception e = false
               /\ exists ev, In ev (calls out) /\ failure_of ev = Some e.
Proof.
  cbv zeta.
  pose proof (insert_text_main_shape w args s) as Hshape. cbv zeta in Hshape.
  destruct (cli_metadata_pairs args) as [pairs|];
    [|left; now rewrite Hshape].
  set (s1 := set_heap _ s) in Hshape.
  set (ins := insert_text _ _ _ _ _ _ _ _ s1) in Hshape.
  destruct (res ins) as [id|e] eqn:Hres; [left; now rewrite Hshape|].
  destruct (is_Exception e) eqn:Hx; [left; now rewrite Hshape|].
  right. exists e. rewrite Hshape. cbn [res calls].
  split; [reflexivity|]. split; [exact Hx|].
  destruct (insert_raise_origin w _ _ _ _ _ _ _ s1 e Hres) as [[Hx' _]|Hev];
    [|exact Hev].
  fold ins in Hx'. congruence.
Qed.

(** What [main] prints. After an upsert that succeeded it prints the four
    lines of the success report, with the identifier of that record and
    ["default"] for the empty namespace; a run without a successful upsert
    that returns normally prints one line that starts with ["Error: "]. *)
Theorem cli_report args s :
  let out := insert_text_main w args s in
  (forall ix ns v,
     In (IndexUpsert ix ns v (Ok tt)) (calls out) ->
     stdout (final out)
     = stdout s
       ++ ["Successfully inserted text into Pinecone";
           "Vector ID: " +:+ vector_id_of v;
           "Index: " +:+ cli_index_name args;
           "Namespace: " +:+ (if String.eqb (cli_namespace args) ""
                              then "default" else cli_namespace args)])
  /\ ((forall ix ns v, ~ In (IndexUpsert ix ns v (Ok tt)) (calls out)) ->
      res out = Ok tt ->
      exists msg, stdout (final out) = stdout s ++ ["Error: " +:+ msg]).
Proof.
  cbv zeta.
  pose proof (insert_text_main_shape w args s) as Hshape. cbv zeta in Hshape.
  destruct (cli_metadata_pairs args) as [pairs|].
  2:{ rewrite Hshape. cbn [res final calls]. split; [intros ? ? ? []|].
      intros _ _. eexists. cbn. reflexivity. }
  set (s1 := set_heap _ s) in Hshape.
  set (ins := insert_text _ _ _ _ _ _ _ _ s1) in Hshape.
  destruct (insert_upsert_facts w (PyStr (cli_text args))
              (PyDict (fresh (dom (heap s))))
              (py_of_option (cli_api_key args)) (PyStr (cli_index_name args))
              (PyStr (cli_namespace args))
              (py_of_option (cli_openai_api_key args))
              (py_of_option (cli_pinecone_host args)) s1)
    as (Hup & Hret & Hout).
  fold ins in Hup, Hret, Hout.
  destruct (res ins) as [id|e] eqn:Hres.
  - rewrite Hshape. cbn [res final calls]. split.
    + intros ix ns v Hin. destruct (Hup _ _ _ _ Hin) as (_ & _ & Hid).
      specialize (Hid eq_refl). injection Hid as ->.
      cbn [stdout set_stdout]. rewrite Hout. cbn [stdout set_heap s1].
      now rewrite <- !app_assoc.
    + intros Hno _. exfalso.
      destruct (Hret id eq_refl) as (ix & v & Hin & _).
      exact (Hno _ _ _ Hin).
  - destruct (is_Exception e); rewrite Hshape; cbn [res final calls].
    + split.
      * intros ix ns v Hin. destruct (Hup _ _ _ _ Hin) as (_ & _ & Hid).
        specialize (Hid eq_refl). discriminate Hid.
      * intros _ _. exists (exn_msg e). cbn [stdout set_stdout].
        now rewrite Hout.
    + split.
      * intros ix ns v Hin. destruct (Hup _ _ _ _ Hin) as (_ & _ & Hid).
        specialize (Hid eq_refl). discriminate Hid.
      * intros _ [=].
Qed.

(** From the command line the index name is always the option (or its
    built-in default) and the store credential is always the [--api-key]
    option: neither [PINECONE_INDEX_NAME] nor [PINECONE_API_KEY] of the
    environment reaches the store. *)
Theorem cli_store_handle_ignores_the_environment args s ev ix :
  In ev (calls (insert_text_main w args s)) ->
  handle_of ev = Some ix ->
  index_name_of ix = PyStr (cli_index_name args)
  /\ index_api_key ix = py_of_option (cli_api_key args).
Proof.
  pose proof (insert_text_main_shape w args s) as Hshape. cbv zeta in Hshape.
  destruct (cli_metadata_pairs args) as [pairs|];
    [|rewrite Hshape; intros []].
  set (s1 := set_heap _ s) in Hshape.
  set (ins := insert_text _ _ _ _ _ _ _ _ s1) in Hshape.
  assert (Hcalls : calls (insert_text_main w args s) = calls ins).
  { destruct (res ins) as [id|e]; [|destruct (is_Exception e)];
      now rewrite Hshape. }
  rewrite Hcalls. intros Hin Hh.
  destruct (insert_handle w _ _ _ _ _ _ _ s1 ev ix Hin Hh) as [Hkey Hname].
  split; [exact Hname|exact Hkey].
Qed.

(** Run without [--api-key] and with a non-blank text, [main] never
    reaches a service, whatever the environment holds: it prints the
    validator's message (or the mismatch of the metadata options) and
    returns. *)
Theorem cli_without_api_key_stops args s :
  cli_api_key args = None ->
  whitespace_only (cli_text args) = false ->
  let out := insert_text_main w args s in
  res out = Ok tt /\ calls out = []
  /\ (stdout (final out) = stdout s ++ ["Error: API key is required"]
      \/ stdout (final out)
         = stdout s
           ++ ["Error: Number of metadata keys and values must match"]).
Proof.
  intros Hkey Ht. cbv zeta.
  pose proof (insert_text_main_shape w args s) as Hshape. cbv zeta in Hshape.
  destruct (cli_metadata_pairs args) as [pairs|].
  2:{ rewrite Hshape. cbn. auto. }
  rewrite Hkey in Hshape.
  rewrite insert_validation_failure
    with (e := Exn ValueError "API key is required") in Hshape.
  - cbn [res is_Exception exn_cls] in Hshape. rewrite Hshape.
    cbn. auto.
  - unfold validate_insert_params. now rewrite text_rejected_str, Ht.
Qed.

End CommandLineFacts.

(** ** The metadata shown with a result *)

(** The display filter removes what insert adds: for metadata that had no
    ["text"] entry of its own, what is shown with a result is the caller's
    mapping, and in any case ["text"] itself is never shown. *)
Theorem displayed_metadata_is_the_callers (M : gmap string pyval) text :
  meta_display (<["text" := text]> M) = delete "text" M
  /\ meta_display (<["text" := text]> M) !! "text" = None
  /\ (M !! "text" = None -> meta_display (<["text" := text]> M) = M).
Proof.
  assert (H : meta_display (<["text" := text]> M) = delete "text" M).
  { unfold meta_display. apply map_eq. intros k.
    destruct (decide (k = "text")) as [->|Hk].
    - rewrite lookup_delete_eq. apply map_lookup_filter_None. right.
      intros x _ Hx. now apply Hx.
    - rewrite lookup_delete_ne by congruence.
      destruct (M !! k) as [x|] eqn:Hx.
      + apply map_lookup_filter_Some. split; [|exact Hk].
        now rewrite lookup_insert_ne by congruence.
      + apply map_lookup_filter_None. left.
        now rewrite lookup_insert_ne by congruence. }
  rewrite H. split; [reflexivity|]. split; [apply lookup_delete_eq|].
  intros Hnone. now apply delete_id.
Qed.

(** ** The further properties at concrete inputs *)

Lemma missing_vector_count_short_circuits_witness :
  let out := search_similar_texts no_count_world (PyStr "vector databases")
               (PyInt 5) (PyStr "pk") (PyStr "idx") (PyStr "") (PyStr "sk")
               PyNone demo_state in
  res out = Ok []
  /\ calls out
     = [DescribeIndexStats (Index (PyStr "pk") (PyStr "idx") None) (Ok ∅)].
Proof.
  apply (missing_vector_count_short_circuits no_count_world
           (PyStr "vector databases") (PyInt 5) (PyStr "pk") (PyStr "idx")
           (PyStr "") (PyStr "sk") PyNone demo_state
           (Index (PyStr "pk") (PyStr "idx") None) ∅).
  - left. reflexivity.
  - reflexivity.
Defined.

Lemma non_empty_index_is_searched_witness :
  exists key r,
    In (EmbeddingsCreate key (PyStr "vector databases") r)
      (calls (search_similar_texts embed_down_world (PyStr "vector databases")
                (PyInt 5) (PyStr "pk") (PyStr "idx") (PyStr "") (PyStr "sk")
                PyNone demo_state)).
Proof.
  apply (non_empty_index_is_searched embed_down_world
           (PyStr "vector databases") (PyInt 5) (PyStr "pk") (PyStr "idx")
           (PyStr "") (PyStr "sk") PyNone demo_state
           (Index (PyStr "pk") (PyStr "idx") None)
           {[ "total_vector_count" := PyInt 3 ]} 3).
  - left. reflexivity.
  - reflexivity.
  - discriminate.
Defined.

Lemma absent_match_list_gives_no_result_witness :
  res (search_similar_texts no_matches_world (PyStr "vector databases")
         (PyInt 5) (PyStr "pk") (PyStr "idx") (PyStr "") (PyStr "sk") PyNone
         demo_state) = Ok [].
Proof.
  apply (absent_match_list_gives_no_result no_matches_world
           (PyStr "vector databases") (PyInt 5) (PyStr "pk") (PyStr "idx")
           (PyStr "") (PyStr "sk") PyNone demo_state
           (Index (PyStr "pk") (PyStr "idx") None) (PyStr "") demo_embedding
           (PyInt 5)).
  right. right. left. reflexivity.
Defined.

Lemma query_uses_the_callers_parameters_witness :
  exists key,
    In (EmbeddingsCreate key (PyStr "vector databases") (Ok demo_embedding))
      (calls (search_similar_texts no_matches_world (PyStr "vector databases")
                (PyInt 5) (PyStr "pk") (PyStr "idx") (PyStr "docs")
                (PyStr "sk") PyNone demo_state)).
Proof.
  apply (query_uses_the_callers_parameters no_matches_world
           (PyStr "vector databases") (PyInt 5) (PyStr "pk") (PyStr "idx")
           (PyStr "docs") (PyStr "sk") PyNone demo_state
           (Index (PyStr "pk") (PyStr "idx") None) (PyStr "docs")
           demo_embedding (PyInt 5) (Ok (QueryResponse None))).
  right. right. left. reflexivity.
Defined.

Lemma search_keeps_the_environment_witness :
  environ (final (search_similar_texts demo_world (PyStr "vector databases")
                    (PyInt 5) (PyStr "pk") (PyStr "idx") (PyStr "")
                    (PyStr "sk") PyNone demo_state))
    !! "OPENAI_API_KEY" = Some "sk-env".
Proof.
  apply (search_keeps_the_environment demo_world (PyStr "vector databases")
           (PyInt 5) (PyStr "pk") (PyStr "idx") (PyStr "") (PyStr "sk")
           PyNone demo_state).
  reflexivity.
Defined.

Lemma store_handle_uses_the_argument_witness :
  index_api_key (Index (PyStr "pk") (PyStr "idx") None) = PyStr "pk"
  /\ index_name_of (Index (PyStr "pk") (PyStr "idx") None)
     = resolved_index_name demo_state (PyStr "idx").
Proof.
  apply (store_handle_uses_the_argument no_matches_world
           (PyStr "vector databases") (PyInt 5) (PyStr "pk") (PyStr "idx")
           (PyStr "") (PyStr "sk") PyNone demo_state
           (DescribeIndexStats (Index (PyStr "pk") (PyStr "idx") None)
              (Ok {[ "total_vector_count" := PyInt 3 ]}))).
  - reflexivity.
  - left. left. reflexivity.
Defined.

Lemma search_embedding_credential_witness :
  exists v, (environ demo_state ∪ dotenv_file embed_down_world)
              !! "OPENAI_API_KEY" = Some v
            /\ v <> "" /\ PyStr "sk-env" = PyStr v.
Proof.
  apply (search_embedding_credential embed_down_world
           (PyStr "vector databases") (PyInt 5) (PyStr "pk") (PyStr "idx")
           (PyStr "") PyNone PyNone demo_state (PyStr "sk-env")
           (PyStr "vector databases") (Raise service_down)).
  - right. left. reflexivity.
  - reflexivity.
Defined.

Lemma insert_embedding_credential_witness :
  exists v, environ demo_state !! "OPENAI_API_KEY" = Some v
            /\ v <> "" /\ PyStr "sk-env" = PyStr v.
Proof.
  apply (insert_embedding_credential embed_down_world (PyStr "some text")
           PyNone (PyStr "pk") (PyStr "idx") (PyStr "") PyNone PyNone
           demo_state (PyStr "sk-env") (PyStr "some text")
           (Raise service_down)).
  - left. reflexivity.
  - reflexivity.
Defined.

Lemma embedding_call_sets_the_global_credential_witness :
  openai_api_key_global
    (final (search_similar_texts embed_down_world (PyStr "vector databases")
              (PyInt 5) (PyStr "pk") (PyStr "idx") (PyStr "") (PyStr "sk")
              PyNone demo_state))
  = PyStr "sk".
Proof.
  apply (proj1 (embedding_call_sets_the_global_credential embed_down_world
                  (PyStr "vector databases") (PyInt 5) (PyStr "pk")
                  (PyStr "idx") (PyStr "") (PyStr "sk") PyNone demo_state)
           (PyStr "sk") (PyStr "vector databases") (Raise service_down)).
  right. left. reflexivity.
Defined.

Lemma insert_touches_only_the_text_entry_witness :
  deref (heap (final (insert_text demo_world (PyStr "new text") (PyDict 1)
                        (PyStr "pk") (PyStr "idx") (PyStr "") (PyStr "sk")
                        PyNone demo_state))) 1 !! "category"
  = deref (heap demo_state) 1 !! "category".
Proof.
  apply (proj2 (insert_touches_only_the_text_entry demo_world
                  (PyStr "new text") 1%positive (PyStr "pk") (PyStr "idx")
                  (PyStr "") (PyStr "sk") PyNone demo_state)).
  discriminate.
Defined.

Lemma insert_without_metadata_keeps_the_heap_witness :
  heap (final (insert_text demo_world (PyStr "new text") PyNone (PyStr "pk")
                 (PyStr "idx") (PyStr "") (PyStr "sk") PyNone demo_state))
    !! 1%positive
  = Some {[ "category" := PyStr "x"; "text" := PyStr "other" ]}.
Proof.
  apply (insert_without_metadata_keeps_the_heap demo_world (PyStr "new text")
           (PyStr "pk") (PyStr "idx") (PyStr "") (PyStr "sk") PyNone
           demo_state 1%positive
           {[ "category" := PyStr "x"; "text" := PyStr "other" ]}).
  reflexivity.
Defined.

Lemma failed_upsert_leaves_the_text_entry_witness :
  let out := insert_text upsert_down_world (PyStr "new text") (PyDict 1)
               (PyStr "pk") (PyStr "idx") (PyStr "") (PyStr "sk") PyNone
               demo_state in
  res out = Raise service_down
  /\ heap (final out) !! 1%positive
     = Some (<["text" := PyStr "new text"]>
               {[ "category" := PyStr "x"; "text" := PyStr "other" ]}).
Proof.
  apply (failed_upsert_leaves_the_text_entry upsert_down_world
           (PyStr "new text") 1%positive (PyStr "pk") (PyStr "idx")
           (PyStr "") (PyStr "sk") PyNone demo_state
           {[ "category" := PyStr "x"; "text" := PyStr "other" ]}
           (Index (PyStr "pk") (PyStr "idx") None) (PyStr "")
           (Vector (demo_uuid 0) demo_embedding
              (<["text" := PyStr "new text"]>
                 {[ "category" := PyStr "x"; "text" := PyStr "other" ]}))
           service_down).
  - reflexivity.
  - right. left. vm_compute. reflexivity.
Defined.

Lemma stored_record_carries_its_text_witness :
  let v := Vector (demo_uuid 0) demo_embedding
             (<["text" := PyStr "new text"]>
                {[ "category" := PyStr "x"; "text" := PyStr "other" ]}) in
  vector_metadata v !! "text" = Some (PyStr "new text")
  /\ (exists t, PyStr "new text" = PyStr t /\ whitespace_only t = false)
  /\ exists key, svc_embed demo_world key (PyStr "new text")
                 = Ok (vector_values v).
Proof.
  apply (stored_record_carries_its_text demo_world (PyStr "new text")
           (PyDict 1) (PyStr "pk") (PyStr "idx") (PyStr "") (PyStr "sk")
           PyNone demo_state (Index (PyStr "pk") (PyStr "idx") None)
           (PyStr "") _ (Ok tt)).
  right. left. vm_compute. reflexivity.
Defined.

Lemma stored_text_round_trips_witness :
  let v := Vector (demo_uuid 0) demo_embedding
             (<["text" := PyStr "new text"]>
                {[ "category" := PyStr "x"; "text" := PyStr "other" ]}) in
  normalize_match (RawMatch "m1" score_095 (Some (vector_metadata v)))
  = SearchResult "m1" (PyStr "new text") score_095 (vector_metadata v).
Proof.
  cbv zeta. apply (stored_text_round_trips demo_world (PyStr "new text") (PyDict 1)
           (PyStr "pk") (PyStr "idx") (PyStr "") (PyStr "sk") PyNone
           demo_state (Index (PyStr "pk") (PyStr "idx") None) (PyStr "")
           (Vector (demo_uuid 0) demo_embedding
              (<["text" := PyStr "new text"]>
                 {[ "category" := PyStr "x"; "text" := PyStr "other" ]}))
           (Ok tt) "m1" score_095).
  right. left. vm_compute. reflexivity.
Defined.

Lemma consecutive_inserts_draw_consecutive_ids_witness :
  demo_uuid 0 = uuid_source demo_world (uuid_counter demo_state)
  /\ demo_uuid 1 = uuid_source demo_world (S (uuid_counter demo_state))
  /\ (uuid_source demo_world (uuid_counter demo_state)
      <> uuid_source demo_world (S (uuid_counter demo_state)) ->
      demo_uuid 0 <> demo_uuid 1).
Proof.
  apply (consecutive_inserts_draw_consecutive_ids demo_world
           (PyStr "first text") PyNone (PyStr "pk") (PyStr "idx") (PyStr "")
           (PyStr "sk") PyNone
           (PyStr "second text") PyNone (PyStr "pk") (PyStr "idx") (PyStr "")
           (PyStr "sk") PyNone demo_state (demo_uuid 0) (demo_uuid 1)).
  - vm_compute. reflexivity.
  - vm_compute. reflexivity.
Defined.

Lemma cli_length_mismatch_stops_witness :
  let out := insert_text_main demo_world
               (InsertCliArgs "some text" (Some ["category"; "lang"])
                  (Some ["x"]) (Some "pk") (Some "sk") "idx" "" None)
               demo_state in
  res out = Ok tt /\ calls out = []
  /\ stdout (final out)
     = stdout demo_state
       ++ ["Error: Number of metadata keys and values must match"]
  /\ uuid_counter (final out) = uuid_counter demo_state.
Proof.
  apply (cli_length_mismatch_stops demo_world
           (InsertCliArgs "some text" (Some ["category"; "lang"])
              (Some ["x"]) (Some "pk") (Some "sk") "idx" "" None)
           demo_state ["category"; "lang"] ["x"]);
    try reflexivity; discriminate.
Defined.

Lemma cli_metadata_later_pair_wins_witness :
  let v := Vector (demo_uuid 0) demo_embedding
             {[ "text" := PyStr "Vector databases store embeddings";
                "category" := PyStr "y"; "lang" := PyStr "en" ]} in
  vector_metadata v
  = <["text" := PyStr (cli_text demo_cli_args)]>
      (list_to_map
         (reverse (map (fun kv => (kv.1, PyStr kv.2))
                     (combine ["category"; "lang"; "category"]
                        ["x"; "en"; "y"]))))
  /\ PyStr "" = PyStr (cli_namespace demo_cli_args).
Proof.
  cbv zeta.
  apply (cli_metadata_later_pair_wins demo_world demo_cli_args demo_state
           ["category"; "lang"; "category"] ["x"; "en"; "y"]
           (Index (PyStr "pk") (PyStr "idx") None) (PyStr "")
           (Vector (demo_uuid 0) demo_embedding
              {[ "text" := PyStr "Vector databases store embeddings";
                 "category" := PyStr "y"; "lang" := PyStr "en" ]})
           (Ok tt)); try reflexivity.
  right. left. vm_compute. reflexivity.
Defined.

Lemma cli_unpaired_metadata_is_dropped_witness :
  vector_metadata
    (Vector (demo_uuid 0) demo_embedding {[ "text" := PyStr "some text" ]})
  = {[ "text" := PyStr "some text" ]}.
Proof.
  apply (cli_unpaired_metadata_is_dropped demo_world
           (InsertCliArgs "some text" (Some ["category"]) None (Some "pk")
              (Some "sk") "idx" "" None)
           demo_state (Index (PyStr "pk") (PyStr "idx") None) (PyStr "")
           (Vector (demo_uuid 0) demo_embedding
              {[ "text" := PyStr "some text" ]})
           (Ok tt)).
  - right. reflexivity.
  - right. left. vm_compute. reflexivity.
Defined.

Lemma cli_report_witness :
  stdout (final (insert_text_main demo_world demo_cli_args demo_state))
  = stdout demo_state
    ++ ["Successfully inserted text into Pinecone";
        "Vector ID: 3f2b8a52-0c55-4a57-9b63-1d0c2f7e8a01";
        "Index: idx";
        "Namespace: default"].
Proof.
  apply (proj1 (cli_report demo_world demo_cli_args demo_state)
           (Index (PyStr "pk") (PyStr "idx") None) (PyStr "")
           (Vector (demo_uuid 0) demo_embedding
              {[ "text" := PyStr "Vector databases store embeddings";
                 "category" := PyStr "y"; "lang" := PyStr "en" ]})).
  right. left. vm_compute. reflexivity.
Defined.

Lemma cli_store_handle_ignores_the_environment_witness :
  index_name_of (Index (PyStr "pk") (PyStr "idx") None)
  = PyStr (cli_index_name demo_cli_args)
  /\ index_api_key (Index (PyStr "pk") (PyStr "idx") None)
     = py_of_option (cli_api_key demo_cli_args).
Proof.
  apply (cli_store_handle_ignores_the_environment demo_world demo_cli_args
           (State {[ "PINECONE_INDEX_NAME" := "other-index";
                     "PINECONE_API_KEY" := "pk-env" ]} ∅ [] PyNone 0)
           (IndexUpsert (Index (PyStr "pk") (PyStr "idx") None) (PyStr "")
              (Vector (demo_uuid 0) demo_embedding
                 {[ "text" := PyStr "Vector databases store embeddings";
                    "category" := PyStr "y"; "lang" := PyStr "en" ]})
              (Ok tt))).
  - right. left. vm_compute. reflexivity.
  - reflexivity.
Defined.

Lemma cli_without_api_key_stops_witness :
  let out := insert_text_main demo_world
               (InsertCliArgs "some text" None None None (Some "sk") "idx" ""
                  None)
               demo_state in
  environ demo_state !! "PINECONE_API_KEY" = Some "pk-env"
  /\ res out = Ok tt /\ calls out = []
  /\ (stdout (final out) = stdout demo_state ++ ["Error: API key is required"]
      \/ stdout (final out)
         = stdout demo_state
           ++ ["Error: Number of metadata keys and values must match"]).
Proof.
  cbv zeta. split; [reflexivity|].
  apply (cli_without_api_key_stops demo_world
           (InsertCliArgs "some text" None None None (Some "sk") "idx" ""
              None)
           demo_state); reflexivity.
Defined.

Lemma displayed_metadata_is_the_callers_witness :
  meta_display (<["text" := PyStr "new text"]> {[ "category" := PyStr "x" ]})
  = {[ "category" := PyStr "x" ]}.
Proof.
  apply (displayed_metadata_is_the_callers {[ "category" := PyStr "x" ]}
           (PyStr "new text")).
  reflexivity.
Defined.
